(** * ProcoreImageRenamer: the field sanitizers, the field parser, the
    reorganizer and the command line of [pdfRenameWithRequests.py]

    The Python program is embedded shallowly.  A Python [str] is a Rocq
    [string]; its characters are the code points 0..255, classified the
    way CPython classifies them ([str.isspace], and the [\w], [\d], [\s]
    classes of [re] on [str] patterns).  [None] is the [None] of
    [option]; a Python [int] is a [Z]; an exception is a constructor of
    [exn] carried by [result].  The file system, the network and the
    standard output are explicit state. *)

From Stdlib Require Import ZArith Ascii String List Bool Lia.
From stdpp Require Import gmap strings pretty.

Local Open Scope Z_scope.

(** ** Python values and exceptions *)

(** The error numbers of an [OSError] that has no class of its own. *)
Inductive os_errno : Type :=
  | ENAMETOOLONG
  | ENOTEMPTY
  | EINVAL
  | EBUSY.

Inductive exn : Type :=
  | AttributeError
  | IndexError
  | TypeError
  | ValueError
  | FileNotFoundError
  | FileExistsError
  | IsADirectoryError
  | NotADirectoryError
  | OSError (errno : os_errno)
  | ConnectionError.

Inductive result (A : Type) : Type :=
  | Ok (a : A)
  | Raise (e : exn).
Arguments Ok {A} a.
Arguments Raise {A} e.

Definition rbind {A B : Type} (r : result A) (k : A -> result B) : result B :=
  match r with
  | Ok a => k a
  | Raise e => Raise e
  end.

(** ** The [str] methods the program uses *)

Module Py.

(** [str.isspace] of one character, which is also the class [\s]. *)
Definition isspace (c : ascii) : bool :=
  let n := N_of_ascii c in
  (((9 <=? n) && (n <=? 13)) || ((28 <=? n) && (n <=? 32))
   || (n =? 133) || (n =? 160))%N.

(** The class [\d]: the decimal digits. *)
Definition isdecimal (c : ascii) : bool :=
  let n := N_of_ascii c in ((48 <=? n) && (n <=? 57))%N.

(** The class [\w]: alphanumeric characters and the underscore. *)
Definition isword (c : ascii) : bool :=
  let n := N_of_ascii c in
  (((48 <=? n) && (n <=? 57)) || ((65 <=? n) && (n <=? 90))
   || (n =? 95) || ((97 <=? n) && (n <=? 122))
   || (n =? 170) || (n =? 178) || (n =? 179) || (n =? 181)
   || (n =? 185) || (n =? 186) || ((188 <=? n) && (n <=? 190))
   || ((192 <=? n) && (n <=? 214)) || ((216 <=? n) && (n <=? 246))
   || (248 <=? n))%N.

Definition len (s : string) : Z := Z.of_nat (String.length s).

(** Truth value of a string: the empty string is false. *)
Definition truthy (s : string) : bool :=
  match s with
  | EmptyString => false
  | String _ _ => true
  end.

Fixpoint lstrip (s : string) : string :=
  match s with
  | EmptyString => EmptyString
  | String c r => if isspace c then lstrip r else s
  end.

Fixpoint rstrip (s : string) : string :=
  match s with
  | EmptyString => EmptyString
  | String c r =>
      match rstrip r with
      | EmptyString => if isspace c then EmptyString else String c EmptyString
      | r' => String c r'
      end
  end.

(** [s.strip()] *)
Definition strip (s : string) : string := rstrip (lstrip s).

Definition startswith (s p : string) : bool := String.prefix p s.

(** [s.replace(old, new)]: the occurrences of [old] are taken from the
    left and do not overlap; [skip] counts the characters of a matched
    occurrence that are still to be passed over. *)
Fixpoint replace_go (old new : string) (skip : nat) (s : string) : string :=
  match s with
  | EmptyString => if truthy old then EmptyString else new
  | String c r =>
      match skip with
      | S k => replace_go old new k r
      | O =>
          if startswith s old
          then (new +:+
                (if truthy old
                 then replace_go old new (Nat.pred (String.length old)) r
                 else String c (replace_go old new O r)))
          else String c (replace_go old new O r)
      end
  end.

Definition replace (old new s : string) : string := replace_go old new O s.

(** [s.split(sep)] for a non-empty [sep], as its first piece and the
    list of the pieces after it. *)
Fixpoint split_go (sep : string) (skip : nat) (s : string)
  : string * list string :=
  match s with
  | EmptyString => (EmptyString, [])
  | String c r =>
      match skip with
      | S k => split_go sep k r
      | O =>
          if startswith s sep
          then (EmptyString,
                let '(h, t) := split_go sep (Nat.pred (String.length sep)) r in
                h :: t)
          else let '(h, t) := split_go sep O r in (String c h, t)
      end
  end.

Definition split (sep s : string) : list string :=
  let '(h, t) := split_go sep O s in h :: t.

(** [s.split(sep)[0]] *)
Definition split_first (sep s : string) : string := fst (split_go sep O s).

Fixpoint take (n : nat) (s : string) : string :=
  match n, s with
  | S k, String c r => String c (take k r)
  | _, _ => EmptyString
  end.

Fixpoint drop (n : nat) (s : string) : string :=
  match n, s with
  | S k, String _ r => drop k r
  | _, _ => s
  end.

(** The slice [s[:stop]]: a negative [stop] counts from the end. *)
Definition slice_to (s : string) (stop : Z) : string :=
  if stop <? 0 then take (Z.to_nat (len s + stop)) s
  else take (Z.to_nat stop) s.

Fixpoint repeat (s : string) (n : nat) : string :=
  match n with
  | O => EmptyString
  | S k => s +:+ repeat s k
  end.

(** [s * n]: empty when [n <= 0]. *)
Definition mul (s : string) (n : Z) : string := repeat s (Z.to_nat n).

(** [l[-1]] of a non-empty list, [None] standing for the empty one. *)
Definition last_item {A : Type} (l : list A) : option A := List.last (List.map Some l) None.

(** The one-character string of a line feed. *)
Definition nl : string := String "010"%char EmptyString.

(** [s.find(sub)], [None] standing for -1. *)
Fixpoint find (sub s : string) : option nat :=
  if startswith s sub then Some O
  else match s with
       | EmptyString => None
       | String _ r => S <$> find sub r
       end.

(** The longest prefix of [s] whose characters all satisfy [p]. *)
Fixpoint take_while (p : ascii -> bool) (s : string) : string :=
  match s with
  | String c r => if p c then String c (take_while p r) else EmptyString
  | EmptyString => EmptyString
  end.

(** A method call [o.replace(old, new)] on a value that may be [None]. *)
Definition replace_method (o : option string) (old new : string)
  : result string :=
  match o with
  | Some s => Ok (replace old new s)
  | None => Raise AttributeError
  end.

End Py.

(** ** The field sanitizers *)

(** Lines 13-24.  [description_field] is rebound three times in the
    source; the names below follow the stages. *)
Definition clean_description (description_field : list string)
  : result (option string) :=
  let cleaned : option string :=
    match description_field with
    | first :: _ =>
        let lines := Py.split Py.nl (Py.strip first) in
        let lines := List.filter (fun line => Py.truthy (Py.strip line)) lines in
        Py.last_item lines
    | [] => None
    end in
  rbind (Py.replace_method cleaned " " "-") (fun d =>
  rbind (Py.replace_method (Some d) "_" "-") (fun d =>
  Ok (Some d))).

(** Lines 27-41.  [limit] is [None] when the argument is left out. *)
Definition clean_field (field : list string) (limit : option Z)
  : option string :=
  match field with
  | first :: _ =>
      let field := Py.replace " " "_" (Py.strip first) in
      match limit with
      | Some limit =>
          if limit =? 0 then Some field
          else if Py.len field >=? limit
               then Some (Py.slice_to field limit)
               else Some (field +:+ Py.mul "_" (limit - Py.len field))
      | None => Some field
      end
  | [] => None
  end.

(** Lines 44-54. *)
Definition clean_date (date_field : list string) : option string :=
  match date_field with
  | first :: _ =>
      let date_field :=
        Py.replace "/" "_" (Py.strip (Py.split_first " at" first)) in
      if String.eqb (Py.replace " " "" date_field) "UploadDate"
      then Some EmptyString
      else Some date_field
  | [] => None
  end.

(** ** The regular expressions of the field parser *)

Module Re.

(** [re.findall(opening + "(.*?)" + closing, text, re.DOTALL)] for
    literal [opening] and [closing], [closing] not empty.  A match starts
    at the first [opening] that has a [closing] after it and captures up
    to the first such [closing]; the scan resumes after the match.  When
    no [closing] follows an [opening], none follows a later one. *)
Fixpoint findall_between_go (fuel : nat) (opening closing text : string)
  : list string :=
  match fuel with
  | O => []
  | S fuel =>
      match Py.find opening text with
      | None => []
      | Some i =>
          let after := Py.drop (i + String.length opening) text in
          match Py.find closing after with
          | None => []
          | Some j =>
              Py.take j after
              :: findall_between_go fuel opening closing
                   (Py.drop (j + String.length closing) after)
          end
      end
  end.

Definition findall_between (opening closing text : string) : list string :=
  findall_between_go (S (String.length text)) opening closing text.

(** [re.findall(r"Job #:\s(\d+)", text)]: the literal, one whitespace
    character, then the longest run of digits, which must not be empty;
    where the literal is not followed that way the scan resumes one
    character further. *)
Fixpoint findall_job_go (fuel : nat) (text : string) : list string :=
  match fuel with
  | O => []
  | S fuel =>
      match Py.find "Job #:" text with
      | None => []
      | Some i =>
          let retry := findall_job_go fuel (Py.drop (S i) text) in
          match Py.drop (i + 6) text with
          | String c r =>
              let digits := Py.take_while Py.isdecimal r in
              if Py.isspace c && Py.truthy digits
              then digits :: findall_job_go fuel (Py.drop (String.length digits) r)
              else retry
          | EmptyString => retry
          end
      end
  end.

Definition findall_job (text : string) : list string :=
  findall_job_go (S (String.length text)) text.

(** [re.sub(r"\W+", repl, s)]: each maximal run of characters outside
    [\w] is one match, replaced by [repl]; [in_run] tells that the
    character before was part of the current match. *)
Fixpoint sub_nonword_go (repl : string) (in_run : bool) (s : string)
  : string :=
  match s with
  | EmptyString => EmptyString
  | String c r =>
      if Py.isword c then String c (sub_nonword_go repl false r)
      else if in_run then sub_nonword_go repl true r
      else repl +:+ sub_nonword_go repl true r
  end.

Definition sub_nonword (repl s : string) : string :=
  sub_nonword_go repl false s.

End Re.

(** ** The field parser *)

Record page_fields : Type := PageFields {
  uploaded_by : option string;
  taken_date : option string;
  upload_date : option string;
  description : option string;
  job_number : option string
}.

(** Lines 102-127. *)
Definition parse_text_to_fields (text : string) : result page_fields :=
  let text := Py.replace "  " " " text in
  let uploaded_by := Re.findall_between ("Uploaded By" +:+ Py.nl) Py.nl text in
  let taken_date := Re.findall_between ("Taken Date" +:+ Py.nl) Py.nl text in
  let upload_date := Re.findall_between ("Upload Date" +:+ Py.nl) Py.nl text in
  let description := Re.findall_between "" "Description" text in
  let job_number := Re.findall_job text in
  let uploaded_by := clean_field uploaded_by (Some 5) in
  let taken_date := clean_date taken_date in
  let upload_date := clean_date upload_date in
  rbind (clean_description description) (fun description =>
  let job_number :=
    match job_number with
    | first :: _ => Some first
    | [] => None
    end in
  Ok (PageFields uploaded_by taken_date upload_date description job_number)).

(** ** Paths: [os.path] of a POSIX system *)

Module Path.

(** [(p[:i], p[i:])] for [i = p.rfind("/") + 1]. *)
Fixpoint rsplit (p : string) : string * string :=
  match p with
  | EmptyString => (EmptyString, EmptyString)
  | String c r =>
      let '(head, tail) := rsplit r in
      if Py.truthy head then (String c head, tail)
      else if Ascii.eqb c "/" then (String c EmptyString, tail)
      else (EmptyString, String c tail)
  end.

Fixpoint all_slashes (s : string) : bool :=
  match s with
  | EmptyString => true
  | String c r => Ascii.eqb c "/" && all_slashes r
  end.

(** [s.rstrip("/")] *)
Fixpoint rstrip_slashes (s : string) : string :=
  match s with
  | EmptyString => EmptyString
  | String c r =>
      match rstrip_slashes r with
      | EmptyString =>
          if Ascii.eqb c "/" then EmptyString else String c EmptyString
      | r' => String c r'
      end
  end.

Definition dirname (p : string) : string :=
  let head := fst (rsplit p) in
  if Py.truthy head && negb (all_slashes head) then rstrip_slashes head
  else head.

Definition basename (p : string) : string := snd (rsplit p).

Fixpoint endswith_slash (s : string) : bool :=
  match s with
  | EmptyString => false
  | String c EmptyString => Ascii.eqb c "/"
  | String _ r => endswith_slash r
  end.

(** A path without the slashes at its end, which name the same entry;
    the root stays as it is. *)
Definition normal (p : string) : string :=
  if all_slashes p then p else rstrip_slashes p.

(** A path with a null character, which no call of [os] accepts. *)
Fixpoint has_nul (p : string) : bool :=
  match p with
  | EmptyString => false
  | String c r => Ascii.eqb c "000" || has_nul r
  end.

(** The length of a name in the bytes of its UTF-8 encoding. *)
Fixpoint byte_length (s : string) : nat :=
  match s with
  | EmptyString => O
  | String c r =>
      ((if (N_of_ascii c <? 128)%N then 1 else 2) + byte_length r)%nat
  end.

(** The longest name of an entry, in bytes. *)
Definition name_max : nat := 255.

(** The last component of [p] is longer than an entry can be named. *)
Definition too_long (p : string) : bool :=
  (name_max <? byte_length (basename (normal p)))%nat.

(** [os.path.join(a, b)] of two strings. *)
Definition join (a b : string) : string :=
  if Py.startswith b "/" then b
  else if negb (Py.truthy a) || endswith_slash a then a +:+ b
  else a +:+ "/" +:+ b.

End Path.

(** ** The world: file system and standard output

    [files] maps the path of a regular file to its content and [dirs]
    holds the paths of the directories, without slashes at their end; the
    current directory and the root are directories of every world.  Two
    paths name the same entry when they are the same string up to the
    slashes at their end: the program builds its paths with
    [os.path.join] from one directory string.  The calls of [os] follow
    a POSIX system with names of at most 255 bytes; permissions are not
    part of the world. *)

Inductive printed : Type :=
  | FailedToRename (old_file : string) (e : exn)
  | ReprOf (s : string)
  | UsageMessage.

Record world : Type := World {
  files : gmap string string;
  dirs : gset string;
  stdout : list printed
}.

(** Computations that read and change the world and may raise; the world
    reached when an exception is raised is kept. *)
Definition M (A : Type) : Type := world -> result A * world.

Definition ret {A : Type} (a : A) : M A := fun w => (Ok a, w).

Definition raise {A : Type} (e : exn) : M A := fun w => (Raise e, w).

Definition bind {A B : Type} (m : M A) (k : A -> M B) : M B :=
  fun w =>
    match m w with
    | (Ok a, w') => k a w'
    | (Raise e, w') => (Raise e, w')
    end.

(** [try: m  except Exception as e: handler e] *)
Definition try_except {A : Type} (m : M A) (handler : exn -> M A) : M A :=
  fun w =>
    match m w with
    | (Ok a, w') => (Ok a, w')
    | (Raise e, w') => handler e w'
    end.

Definition lift {A : Type} (r : result A) : M A := fun w => (r, w).

Definition print (p : printed) : M unit :=
  fun w => (Ok tt, World (files w) (dirs w) (stdout w ++ [p])).

Declare Scope M_scope.
Delimit Scope M_scope with M.
Bind Scope M_scope with M.
Notation "x <- m ;; k" := (bind m (fun x => k))
  (at level 100, m at next level, right associativity) : M_scope.
Notation "m ;;; k" := (bind m (fun _ => k))
  (at level 100, right associativity) : M_scope.
Local Open Scope M_scope.

(** What lies outside the program: whether [os.rename] replaces an
    existing destination file (it does on POSIX and raises on Windows),
    the answers of the network, the documents behind the paths of PDF
    files, and the order in which the pool completes the downloads. *)
Record pdf_page : Type := PdfPage {
  plumber_text : string;
  hyperlinks : list string;
  reader_text : string
}.

Record download_task : Type := DownloadTask {
  task_url : string;
  task_path : string;
  task_count : Z;
  task_section_title : option string
}.

Record env : Type := Env {
  rename_replaces : bool;
  requests_get : string -> result string;
  open_pdf : string -> result (list pdf_page);
  as_completed : list download_task -> list download_task
}.

Module Os.

Definition isfile (p : string) (w : world) : bool :=
  bool_decide (is_Some (files w !! p)).

(** [os.path.isdir(p)] *)
Definition isdir (p : string) (w : world) : bool :=
  Py.truthy p
  && (Path.all_slashes p || bool_decide (Path.normal p ∈ dirs w)).

(** [os.path.exists(p)]; the empty path does not exist. *)
Definition path_exists (p : string) (w : world) : bool :=
  Py.truthy p && (isfile p w || isdir p w).

(** The error of passing through [d] on the way to an entry below it:
    [d] must be a directory. *)
Definition component_error (d : string) (w : world) : option exn :=
  if Path.too_long d then Some (OSError ENAMETOOLONG)
  else if isfile d w then Some NotADirectoryError
  else if bool_decide (d ∈ dirs w) then None
  else Some FileNotFoundError.

(** The first error met on the way down to the directory that holds [p],
    from the root or the current directory. *)
Fixpoint parents_error_go (fuel : nat) (p : string) (w : world)
  : option exn :=
  let parent := Path.dirname (Path.normal p) in
  if negb (Py.truthy parent) || Path.all_slashes parent then None
  else match fuel with
       | S fuel =>
           match parents_error_go fuel parent w with
           | Some err => Some err
           | None => component_error parent w
           end
       | O => component_error parent w
       end.

Definition parents_error (p : string) (w : world) : option exn :=
  parents_error_go (String.length p) p w.

(** The errors every call raises for its path before it looks at the
    entry itself: a null character, the empty path, a directory on the
    way that is missing or is no directory. *)
Definition path_error (p : string) (w : world) : option exn :=
  if Path.has_nul p then Some ValueError
  else if negb (Py.truthy p) then Some FileNotFoundError
  else parents_error p w.

(** Some entry lies below the directory [d]. *)
Definition has_children (d : string) (w : world) : bool :=
  existsb (fun p => Py.startswith p (d +:+ "/"))
    (elements (dom (files w) ∪ dirs w)).

(** The path of an entry after the directory [s] has become [t]. *)
Definition rekey (s t p : string) : string :=
  if String.eqb p s then t
  else if Py.startswith p (s +:+ "/") then t +:+ Py.drop (String.length s) p
  else p.

(** [os.rename(src, dst)] of the regular file [src] with [content]. *)
Definition rename_file (e : env) (src dst content : string) (w : world)
  : result world :=
  if Path.endswith_slash src then Raise NotADirectoryError
  else if Path.all_slashes dst then Raise (OSError EBUSY)
  else if Path.too_long dst then Raise (OSError ENAMETOOLONG)
  else if negb (rename_replaces e) && path_exists dst w
          && negb (String.eqb src dst)
       then Raise FileExistsError
  else if isdir dst w then Raise IsADirectoryError
  else if Path.endswith_slash dst then Raise NotADirectoryError
  else Ok (World (<[dst := content]> (delete src (files w)))
             (dirs w) (stdout w)).

(** [os.rename(src, dst)] of the directory [src]: it moves with all that
    lies below it, and replaces [dst] only when that is an empty
    directory. *)
Definition rename_dir (e : env) (src dst : string) (w : world)
  : result world :=
  let s := Path.normal src in
  let t := Path.normal dst in
  if Path.all_slashes dst then Raise (OSError EBUSY)
  else if Py.startswith t (s +:+ "/") then Raise (OSError EINVAL)
  else if Path.too_long dst then Raise (OSError ENAMETOOLONG)
  else if String.eqb s t then Ok w
  else if negb (rename_replaces e) && path_exists dst w
       then Raise FileExistsError
  else if isfile t w then Raise NotADirectoryError
  else if bool_decide (t ∈ dirs w) && has_children t w
       then Raise (OSError ENOTEMPTY)
  else Ok (World
             (list_to_map
                ((fun entry => (rekey s t (fst entry), snd entry))
                   <$> map_to_list (files w)))
             (set_map (rekey s t) (dirs w))
             (stdout w)).

(** [os.rename(src, dst)]: both paths are resolved down to their
    directories, then [src] is looked up, then [dst]. *)
Definition rename_result (e : env) (src dst : string) (w : world)
  : result world :=
  if Path.has_nul src || Path.has_nul dst then Raise ValueError
  else if negb (Py.truthy src) || negb (Py.truthy dst)
       then Raise FileNotFoundError
  else match parents_error src w with
       | Some err => Raise err
       | None =>
           match parents_error dst w with
           | Some err => Raise err
           | None =>
               if Path.all_slashes src then Raise (OSError EBUSY)
               else if Path.too_long src then Raise (OSError ENAMETOOLONG)
               else match files w !! src with
                    | Some content => rename_file e src dst content w
                    | None =>
                        if isfile (Path.normal src) w
                        then Raise NotADirectoryError
                        else if bool_decide (Path.normal src ∈ dirs w)
                             then rename_dir e src dst w
                             else Raise FileNotFoundError
                    end
           end
       end.

Definition rename (e : env) (src dst : string) : M unit :=
  fun w =>
    match rename_result e src dst w with
    | Ok w' => (Ok tt, w')
    | Raise err => (Raise err, w)
    end.

(** [os.mkdir(name)] *)
Definition mkdir (name : string) : M unit :=
  fun w =>
    match path_error name w with
    | Some err => (Raise err, w)
    | None =>
        if Path.all_slashes name then (Raise FileExistsError, w)
        else if Path.too_long name then (Raise (OSError ENAMETOOLONG), w)
        else if isfile (Path.normal name) w
                || bool_decide (Path.normal name ∈ dirs w)
             then (Raise FileExistsError, w)
        else (Ok tt,
              World (files w) ({[Path.normal name]} ∪ dirs w) (stdout w))
    end.

(** [os.makedirs(name, exist_ok=True)]: the missing ancestors first, then
    [name] itself, an [OSError] of the last [mkdir] being passed over when
    [name] is a directory. *)
Fixpoint makedirs_go (fuel : nat) (name : string) : M unit :=
  let head := Path.dirname name in
  let tail := Path.basename name in
  let '(head, tail) :=
    if Py.truthy tail then (head, tail)
    else (Path.dirname head, Path.basename head) in
  let last_mkdir : M unit :=
    try_except (mkdir name)
      (fun err w =>
         match err with
         | ValueError => (Raise err, w)
         | _ => if isdir name w then (Ok tt, w) else (Raise err, w)
         end) in
  fun w =>
    if Py.truthy head && Py.truthy tail && negb (path_exists head w)
    then match fuel with
         | S fuel =>
             (try_except (makedirs_go fuel head)
                (fun err => match err with
                            | FileExistsError => ret tt
                            | _ => raise err
                            end) ;;;
              if String.eqb tail "." then ret tt else last_mkdir) w
         | O => last_mkdir w
         end
    else last_mkdir w.

Definition makedirs (name : string) : M unit :=
  makedirs_go (String.length name) name.

(** [with open(filename, "wb") as file: file.write(content)] *)
Definition write_file (filename content : string) : M unit :=
  fun w =>
    match path_error filename w with
    | Some err => (Raise err, w)
    | None =>
        if Path.all_slashes filename then (Raise IsADirectoryError, w)
        else if Path.too_long filename
             then (Raise (OSError ENAMETOOLONG), w)
        else if isdir filename w || Path.endswith_slash filename
             then (Raise IsADirectoryError, w)
        else (Ok tt,
              World (<[filename := content]> (files w)) (dirs w) (stdout w))
    end.

End Os.

(** ** The reorganizer *)

(** A value interpolated in an f-string: [None] prints as its name. *)
Definition fmt (o : option string) : string :=
  match o with
  | Some s => s
  | None => "None"
  end.

(** [os.path.join(a, b)] where [b] may be [None]. *)
Definition join_value (a : string) (b : option string) : M string :=
  match b with
  | Some b => ret (Path.join a b)
  | None => raise TypeError
  end.

(** Lines 131-138. *)
Definition move_jpeg_to_directory (e : env) (old_file : string)
    (description : option string) : M unit :=
  directory_path <- join_value (Path.dirname old_file) description ;;
  Os.makedirs directory_path ;;;
  let new_file := Path.join directory_path (Path.basename old_file) in
  Os.rename e old_file new_file.

(** Lines 145-149. *)
Definition new_name_base (page_number : Z) (description taken_date
    job_number : option string) : string :=
  let new_name_base :=
    match taken_date with
    | Some EmptyString =>
        fmt description +:+ "_" +:+ pretty page_number +:+ "_"
          +:+ fmt job_number
    | _ =>
        fmt description +:+ "_" +:+ pretty page_number +:+ "_"
          +:+ fmt taken_date +:+ "_" +:+ fmt job_number
    end in
  Re.sub_nonword "" new_name_base.

(** Lines 151-154: the loop, entered with the candidate [new_name]; it
    leaves within one round more than there are entries in the world
    (lemma [unique_name_free]). *)
Fixpoint unique_name_go (fuel : nat) (dir base : string) (suffix : Z)
    (new_name : string) (w : world) : string :=
  match fuel with
  | S fuel =>
      if Os.path_exists (Path.join dir new_name) w
      then let suffix := suffix + 1 in
           unique_name_go fuel dir base suffix
             (base +:+ "_" +:+ pretty suffix +:+ ".jpeg") w
      else new_name
  | O => new_name
  end.

Definition unique_name (dir base : string) (w : world) : string :=
  unique_name_go (S (size (files w) + size (dirs w))) dir base 0
    (base +:+ ".jpeg") w.

(** Lines 141-160. *)
Definition rename_jpeg (e : env) (old_file : string) (page_number : Z)
    (description uploaded_by taken_date job_number : option string)
  : M unit :=
  fun w =>
    let new_name_base :=
      new_name_base page_number description taken_date job_number in
    let new_name := unique_name (Path.dirname old_file) new_name_base w in
    let new_file := Path.join (Path.dirname old_file) new_name in
    try_except
      (Os.rename e old_file new_file ;;;
       move_jpeg_to_directory e new_file description)
      (fun err => print (FailedToRename old_file err)) w.

(** ** Fetching the images *)

(** Lines 60-68. *)
Definition download_jpeg (e : env) (url path : string) (count : Z)
    (section_title : option string) : M (string * Z) :=
  response <- lift (requests_get e url) ;;
  let filename :=
    Path.join path (fmt section_title +:+ "_" +:+ pretty count +:+ ".jpeg") in
  Os.write_file filename response ;;;
  ret (filename, count).

(** Lines 80-95: the tasks submitted to the pool, page after page, and the
    exception that ends the loop early when a page does not parse. *)
Fixpoint submit_pages (directory : string) (page_number : Z)
    (pages : list pdf_page) : list download_task * option exn :=
  match pages with
  | [] => ([], None)
  | page :: pages =>
      match parse_text_to_fields (plumber_text page) with
      | Raise err => ([], Some err)
      | Ok fields =>
          let submitted :=
            List.map (fun jpeg_url =>
                        DownloadTask jpeg_url directory (page_number + 1)
                          (description fields))
                     (hyperlinks page) in
          let '(rest, err) := submit_pages directory (page_number + 1) pages in
          (submitted ++ rest, err)
      end
  end.

(** The pool runs every submitted task; the futures are listed in the
    order of completion, each with the value or the exception of its
    task. *)
Fixpoint run_tasks (e : env) (tasks : list download_task)
  : M (list (result (string * Z))) :=
  match tasks with
  | [] => ret []
  | t :: tasks =>
      fun w =>
        let '(r, w) :=
          download_jpeg e (task_url t) (task_path t) (task_count t)
            (task_section_title t) w in
        (futures <- run_tasks e tasks ;; ret (r :: futures)) w
  end.

(** Lines 96-98. *)
Fixpoint collect (futures : list (result (string * Z)))
    (jpeg_files : gmap Z string) : result (gmap Z string) :=
  match futures with
  | [] => Ok jpeg_files
  | Ok (jpeg_file, page_number) :: futures =>
      collect futures (<[page_number := jpeg_file]> jpeg_files)
  | Raise err :: _ => Raise err
  end.

(** Lines 71-99.  Leaving the [with] block, also by an exception, waits
    for the tasks submitted so far. *)
Definition download_jpegs_from_pdf (e : env) (pdf_file directory : string)
  : M (gmap Z string) :=
  pdf <- lift (open_pdf e pdf_file) ;;
  let '(tasks, err) := submit_pages directory 0 pdf in
  futures <- run_tasks e (as_completed e tasks) ;;
  match err with
  | Some err => raise err
  | None => lift (collect futures ∅)
  end.

(** ** The driver *)

(** Lines 173-187: the body of the loop and the loop. *)
Definition process_page (e : env) (jpeg_files : gmap Z string)
    (page_number : Z) (page : pdf_page) : M unit :=
  fields <- lift (parse_text_to_fields (reader_text page)) ;;
  match jpeg_files !! page_number with
  | Some jpeg_file =>
      rename_jpeg e jpeg_file page_number (description fields)
        (uploaded_by fields) (taken_date fields) (job_number fields)
  | None => ret tt
  end.

Fixpoint process_pages (e : env) (jpeg_files : gmap Z string)
    (page_number : Z) (pages : list pdf_page) : M unit :=
  match pages with
  | [] => ret tt
  | page :: pages =>
      process_page e jpeg_files page_number page ;;;
      process_pages e jpeg_files (page_number + 1) pages
  end.

(** Lines 163-187. *)
Definition process_pdf (e : env) (pdf_file directory : string) : M unit :=
  Os.makedirs directory ;;;
  jpeg_files <- download_jpegs_from_pdf e pdf_file directory ;;
  read_pdf <- lift (open_pdf e pdf_file) ;;
  process_pages e jpeg_files 1 read_pdf.

(** ** The command line *)

(** How the script ends: it runs to its end, [sys.exit] is called, or an
    exception reaches the top. *)
Inductive ending : Type :=
  | Finished
  | Exit (status : Z)
  | Uncaught (e : exn).

(** [sys.argv[i]] *)
Definition argv_item (argv : list string) (i : nat) : result string :=
  match List.nth_error argv i with
  | Some a => Ok a
  | None => Raise IndexError
  end.

Definition backslash : string := String "092"%char EmptyString.
Definition double_quote : string := String "034"%char EmptyString.

(** Lines 192-204. *)
Definition main (e : env) (argv : list string) (w : world) : ending * world :=
  match argv_item argv 1 with
  | Raise err => (Uncaught err, w)
  | Ok pdf_file =>
      match argv_item argv 2 with
      | Raise err => (Uncaught err, w)
      | Ok directory =>
          let '(_, w) := print (ReprOf directory) w in
          let directory :=
            Py.replace double_quote ""
              (Py.replace (backslash +:+ backslash) backslash directory) in
          let '(_, w) := print (ReprOf directory) w in
          if negb (Nat.eqb (List.length argv) 3)
          then let '(_, w) := print UsageMessage w in (Exit 1, w)
          else match process_pdf e pdf_file directory w with
               | (Ok _, w) => (Finished, w)
               | (Raise err, w) => (Uncaught err, w)
               end
      end
  end.

(** ** The sanitizers in the words of their description *)

Module Spec.

(** Every character of [s] passed through [f]. *)
Fixpoint map_chars (f : ascii -> ascii) (s : string) : string :=
  match s with
  | EmptyString => EmptyString
  | String c r => String (f c) (map_chars f r)
  end.

(** The characters of [s] that satisfy [p], in order. *)
Fixpoint filter_chars (p : ascii -> bool) (s : string) : string :=
  match s with
  | EmptyString => EmptyString
  | String c r => if p c then String c (filter_chars p r) else filter_chars p r
  end.

(** Every [a] replaced by [b]. *)
Definition replace_char (a b : ascii) (s : string) : string :=
  map_chars (fun c => if Ascii.eqb c a then b else c) s.

(** Every [a] deleted. *)
Definition delete_char (a : ascii) (s : string) : string :=
  filter_chars (fun c => negb (Ascii.eqb c a)) s.

(** Everything from the first [sep] onward removed. *)
Definition before_first (sep s : string) : string :=
  match Py.find sep s with
  | Some i => Py.take i s
  | None => s
  end.

(** The first match stripped, its spaces replaced by underscores. *)
Definition field_value (first : string) : string :=
  replace_char " " "_" (Py.strip first).

(** The first [n] characters of [s]. *)
Definition truncate (n : Z) (s : string) : string := Py.take (Z.to_nat n) s.

(** [s] with underscores added on the right up to the width [n]. *)
Definition pad (n : Z) (s : string) : string :=
  s +:+ Py.repeat "_" (Z.to_nat (n - Py.len s)).

(** The first match with everything from " at" onward removed,
    stripped, every "/" replaced by "_". *)
Definition date_value (first : string) : string :=
  replace_char "/" "_" (Py.strip (before_first " at" first)).

(** The last of the lines of the stripped first match that are not
    empty. *)
Definition last_nonempty_line (first : string) : option string :=
  Py.last_item
    (List.filter (fun line => negb (String.eqb line EmptyString))
       (Py.split Py.nl (Py.strip first))).

(** A line that holds a character other than white space. *)
Definition nonblank (line : string) : bool := Py.truthy (Py.strip line).

(** Every space and every underscore replaced by a hyphen. *)
Definition hyphenate (s : string) : string :=
  map_chars (fun c => if Ascii.eqb c " " || Ascii.eqb c "_" then "-"%char
                      else c) s.

(** Every character that is not alphanumeric or underscore stripped. *)
Definition strip_nonword (s : string) : string := filter_chars Py.isword s.

(** The base of the output name before sanitization. *)
Definition raw_name_base (page_number : Z) (description taken_date
    job_number : option string) : string :=
  if bool_decide (taken_date = Some EmptyString)
  then fmt description +:+ "_" +:+ pretty page_number +:+ "_"
         +:+ fmt job_number
  else fmt description +:+ "_" +:+ pretty page_number +:+ "_"
         +:+ fmt taken_date +:+ "_" +:+ fmt job_number.

(** The names the loop of [rename_jpeg] tries, in order. *)
Definition candidate (base : string) (suffix : Z) : string :=
  if suffix =? 0 then base +:+ ".jpeg"
  else base +:+ "_" +:+ pretty suffix +:+ ".jpeg".

End Spec.

(** ** Inputs of the examples *)

(** A description blob as the testable property gives it, the anchor
    included, and as the parser captures it, the anchor left out. *)
Definition blob_with_anchor : string :=
  "Foo" +:+ Py.nl +:+ Py.nl +:+ "Bar Baz" +:+ Py.nl +:+ "Description".

Definition blob_captured : string :=
  "Foo" +:+ Py.nl +:+ Py.nl +:+ "Bar Baz" +:+ Py.nl.

(** The text of a page with all its fields. *)
Definition full_page_text : string :=
  "Job #: 4711" +:+ Py.nl +:+ "Roof  leak_north" +:+ Py.nl
  +:+ "Description" +:+ Py.nl +:+ "Uploaded By" +:+ Py.nl
  +:+ "Alice Bob" +:+ Py.nl +:+ "Taken Date" +:+ Py.nl
  +:+ "03/01/2020 at 10:00 PM" +:+ Py.nl +:+ "Upload Date" +:+ Py.nl
  +:+ "03/02/2020 at 08:15 AM" +:+ Py.nl.

(** A page with a photograph and all its fields, and a page without
    photograph and without fields. *)
Definition photo_page : pdf_page :=
  PdfPage full_page_text ["https://images.example/1"] full_page_text.

Definition cover_page : pdf_page :=
  PdfPage "Cover sheet, no fields" [] "Cover sheet, no fields".

(** A page without photograph whose text still holds the anchor. *)
Definition notes_page : pdf_page :=
  PdfPage ("Site notes" +:+ Py.nl +:+ "Description")
          [] ("Site notes" +:+ Py.nl +:+ "Description").

(** An environment in which every request answers, every path opens the
    document [pdf] and the downloads complete in the order of their
    submission. *)
Definition example_env (replaces : bool) (pdf : list pdf_page) : env :=
  Env replaces (fun url => Ok ("image of " +:+ url)) (fun _ => Ok pdf)
      (fun tasks => tasks).

(** A world with nothing but the current directory. *)
Definition empty_world : world := World ∅ ∅ [].

(** Two fetched images wait in the directory "out". *)
Definition two_temp_files : world :=
  World {[ "out/a.jpeg" := "first image"; "out/b.jpeg" := "second image" ]}
        {[ "out" ]} [].

(** Two successive calls of [rename_jpeg] with the same metadata, the
    first for "out/a.jpeg" and the second for "out/b.jpeg". *)
Definition finalize_twice (e : env) : world :=
  let w :=
    snd (rename_jpeg e "out/a.jpeg" 1 (Some "Roof") (Some "Alice")
           (Some EmptyString) (Some "4711") two_temp_files) in
  snd (rename_jpeg e "out/b.jpeg" 1 (Some "Roof") (Some "Alice")
         (Some EmptyString) (Some "4711") w).

(** The matches of the field patterns in the text of a page, as
    [parse_text_to_fields] computes them. *)
Definition uploaded_by_matches (text : string) : list string :=
  Re.findall_between ("Uploaded By" +:+ Py.nl) Py.nl
    (Py.replace "  " " " text).

Definition description_matches (text : string) : list string :=
  Re.findall_between "" "Description" (Py.replace "  " " " text).

Definition job_number_matches (text : string) : list string :=
  Re.findall_job (Py.replace "  " " " text).

(** ** Vocabulary of the further properties *)

(** [c in s] for a character [c]. *)
Fixpoint occurs (c : ascii) (s : string) : bool :=
  match s with
  | EmptyString => false
  | String a r => Ascii.eqb a c || occurs c r
  end.

(** Every character of [s] satisfies [p]. *)
Fixpoint all_chars (p : ascii -> bool) (s : string) : bool :=
  match s with
  | EmptyString => true
  | String a r => p a && all_chars p r
  end.

(** The line feed as a character. *)
Definition nl_char : ascii := "010"%char.

(** The text of a page is one [parse_text_to_fields] returns on. *)
Definition parses (text : string) : bool :=
  match parse_text_to_fields text with
  | Ok _ => true
  | Raise _ => false
  end.

(** The path at which [download_jpeg] writes the image of a page. *)
Definition temp_path (directory : string) (section_title : option string)
    (count : Z) : string :=
  Path.join directory
    (fmt section_title +:+ "_" +:+ pretty count +:+ ".jpeg").

(** A computation that leaves the files and the output as they are. *)
Definition keeps_files {A : Type} (m : M A) : Prop :=
  forall w, files (snd (m w)) = files w /\ stdout (snd (m w)) = stdout w.

(** A world with the empty directory "out", and the mapping the first
    pass returns there for a photo page followed by a page of notes. *)
Definition out_world : world := World ∅ {[ "out" ]} [].

Definition photo_mapping : gmap Z string :=
  {[ 1 := "out/Roof-leak-north_1.jpeg" ]}.

(** The double quote as a character. *)
Definition quote_char : ascii := "034"%char.

(** A directory "out" in which the first two names for "Roof_1_4711" are
    taken, one by a file and one by a directory. *)
Definition taken_names : world :=
  World {[ "out/Roof_1_4711.jpeg" := "older image";
           "out/t.jpeg" := "new image" ]}
        {[ "out"; "out/Roof_1_4711_1.jpeg" ]} [].

(** ** Facts about strings *)

Section StringFacts.

Implicit Types (s r : string) (c a b : ascii).

Lemma startswith_empty s : Py.startswith s EmptyString = true.
Proof. destruct s; reflexivity. Qed.

Lemma startswith_char c r a :
  Py.startswith (String c r) (String a EmptyString) = Ascii.eqb c a.
Proof.
  unfold Py.startswith; simpl.
  destruct (ascii_dec a c) as [->|Hne].
  - rewrite Ascii.eqb_refl. destruct r; reflexivity.
  - symmetry. apply Ascii.eqb_neq. congruence.
Qed.

Lemma replace_char_spec a b s :
  Py.replace (String a EmptyString) (String b EmptyString) s
  = Spec.replace_char a b s.
Proof.
  unfold Py.replace, Spec.replace_char.
  induction s as [|c r IH]; [reflexivity|].
  cbn [Py.replace_go Spec.map_chars].
  rewrite startswith_char.
  destruct (Ascii.eqb c a); cbn; rewrite IH; reflexivity.
Qed.

Lemma replace_delete_spec a s :
  Py.replace (String a EmptyString) EmptyString s = Spec.delete_char a s.
Proof.
  unfold Py.replace, Spec.delete_char.
  induction s as [|c r IH]; [reflexivity|].
  cbn [Py.replace_go Spec.filter_chars].
  rewrite startswith_char.
  destruct (Ascii.eqb c a); cbn; rewrite IH; reflexivity.
Qed.

Lemma split_first_spec sep s :
  Py.split_first sep s = Spec.before_first sep s.
Proof.
  unfold Py.split_first, Spec.before_first.
  induction s as [|c r IH].
  - destruct sep; reflexivity.
  - cbn [Py.split_go Py.find].
    destruct (Py.startswith (String c r) sep); [reflexivity|].
    destruct (Py.split_go sep 0 r) as [h t]; cbn in IH |- *.
    rewrite IH. destruct (Py.find sep r); reflexivity.
Qed.

Lemma hyphenate_spec s :
  Py.replace "_" "-" (Py.replace " " "-" s) = Spec.hyphenate s.
Proof.
  rewrite !replace_char_spec. unfold Spec.replace_char, Spec.hyphenate.
  induction s as [|c r IH]; [reflexivity|].
  cbn [Spec.map_chars]. rewrite IH. f_equal.
  destruct (Ascii.eqb_spec c " ") as [->|_]; [reflexivity|].
  destruct (Ascii.eqb_spec c "_") as [->|_]; reflexivity.
Qed.

Lemma length_app s r :
  String.length (s +:+ r) = (String.length s + String.length r)%nat.
Proof. induction s as [|c s IH]; simpl; [reflexivity|]. now f_equal. Qed.

Lemma length_take n s :
  String.length (Py.take n s) = Nat.min n (String.length s).
Proof.
  revert s; induction n as [|n IH]; intros [|c s]; simpl; try reflexivity.
  now f_equal.
Qed.

Lemma length_repeat_char c n :
  String.length (Py.repeat (String c EmptyString) n) = n.
Proof. induction n as [|n IH]; simpl; [reflexivity|]. now f_equal. Qed.

(** *** Stripping *)

Lemma rstrip_idem s : Py.rstrip (Py.rstrip s) = Py.rstrip s.
Proof.
  induction s as [|c r IH]; [reflexivity|].
  cbn [Py.rstrip].
  destruct (Py.rstrip r) as [|d r'] eqn:Hr.
  - destruct (Py.isspace c) eqn:Hc; [reflexivity|].
    cbn. now rewrite Hc.
  - cbn [Py.rstrip]. cbn [Py.rstrip] in IH.
    destruct (Py.rstrip r') as [|d' r''] eqn:Hr'.
    + destruct (Py.isspace d); [discriminate IH|]. congruence.
    + congruence.
Qed.

Lemma rstrip_strip s : Py.rstrip (Py.strip s) = Py.strip s.
Proof. apply rstrip_idem. Qed.

Lemma rstrip_cons_nonspace c r :
  Py.isspace c = false -> Py.truthy (Py.rstrip (String c r)) = true.
Proof.
  intros Hc. cbn [Py.rstrip].
  destruct (Py.rstrip r); [now rewrite Hc|reflexivity].
Qed.

Lemma nonblank_cons c line :
  Spec.nonblank line = true -> Spec.nonblank (String c line) = true.
Proof.
  unfold Spec.nonblank, Py.strip. intros H. cbn [Py.lstrip].
  destruct (Py.isspace c) eqn:Hc; [exact H|].
  now apply rstrip_cons_nonspace.
Qed.

Lemma nonblank_nonempty line :
  Spec.nonblank line = true -> negb (String.eqb line EmptyString) = true.
Proof. destruct line; [discriminate|reflexivity]. Qed.

(** The last line of a text that ends in a character other than white
    space holds that character. *)
Lemma last_piece_nonblank s h t :
  Py.rstrip s = s -> Py.truthy s = true ->
  Py.split_go Py.nl 0 s = (h, t) ->
  Spec.nonblank (List.last (h :: t) EmptyString) = true.
Proof.
  revert h t; induction s as [|c r IH]; intros h t Htidy Hne Hsplit;
    [discriminate|].
  cbn [Py.split_go] in Hsplit. unfold Py.nl in Hsplit at 1.
  rewrite startswith_char in Hsplit. cbn [String.length Nat.pred Py.nl] in Hsplit.
  fold Py.nl in Hsplit.
  destruct r as [|d r'].
  - (* the last character *)
    cbn in Htidy. destruct (Py.isspace c) eqn:Hc; [discriminate|].
    destruct (Ascii.eqb_spec c "010") as [->|_]; [discriminate Hc|].
    cbn in Hsplit. injection Hsplit as <- <-.
    unfold Spec.nonblank, Py.strip. cbn. now rewrite Hc; cbn; rewrite Hc.
  - assert (Hr : Py.rstrip (String d r') = String d r').
    { cbn [Py.rstrip] in Htidy |- *.
      destruct (match Py.rstrip r' with
                | EmptyString =>
                    if Py.isspace d then EmptyString else String d EmptyString
                | String a s0 => String d (String a s0)
                end) as [|x y] eqn:E.
      - destruct (Py.isspace c); discriminate.
      - congruence. }
    destruct (Py.split_go Py.nl 0 (String d r')) as [h' t'] eqn:Hs'.
    specialize (IH h' t' Hr eq_refl eq_refl).
    destruct (Ascii.eqb c "010").
    + injection Hsplit as <- <-. exact IH.
    + injection Hsplit as <- <-.
      destruct t' as [|x t']; [now apply nonblank_cons|exact IH].
Qed.

Lemma last_item_filter {A : Type} (p : A -> bool) (l : list A) (d : A) :
  l <> [] -> p (List.last l d) = true ->
  Py.last_item (List.filter p l) = Some (List.last l d).
Proof.
  unfold Py.last_item.
  induction l as [|x l IH]; intros Hne Hp; [congruence|].
  destruct l as [|y l].
  - cbn in Hp |- *. now rewrite Hp.
  - assert (IH' := IH ltac:(discriminate) Hp).
    change (List.last (x :: y :: l) d) with (List.last (y :: l) d).
    cbn [List.filter] in IH' |- *.
    destruct (p x); [|exact IH'].
    destruct (if p y then y :: List.filter p l else List.filter p l);
      [discriminate IH'|exact IH'].
Qed.

(** Dropping the lines of white space and dropping the empty lines
    leave the same last line. *)
Lemma last_line_agree first :
  Py.last_item
    (List.filter (fun line => Py.truthy (Py.strip line))
       (Py.split Py.nl (Py.strip first)))
  = Spec.last_nonempty_line first.
Proof.
  unfold Spec.last_nonempty_line, Py.split.
  destruct (Py.truthy (Py.strip first)) eqn:Hne.
  - destruct (Py.split_go Py.nl 0 (Py.strip first)) as [h t] eqn:Hs.
    pose proof (last_piece_nonblank _ _ _ (rstrip_strip first) Hne Hs) as Hl.
    change (fun line => Py.truthy (Py.strip line)) with Spec.nonblank.
    rewrite (last_item_filter Spec.nonblank (h :: t) EmptyString
               ltac:(discriminate) Hl).
    symmetry.
    apply (last_item_filter _ (h :: t) EmptyString ltac:(discriminate)).
    now apply nonblank_nonempty.
  - destruct (Py.strip first); [reflexivity|discriminate].
Qed.

End StringFacts.

(** ** The field sanitizers *)

Section Sanitizers.

Implicit Types (first line : string) (rest : list string) (limit : Z).

Lemma clean_field_unfold first rest limit :
  clean_field (first :: rest) (Some limit)
  = Some (let v := Spec.field_value first in
          if limit =? 0 then v
          else if Py.len v >=? limit then Py.slice_to v limit
               else v +:+ Py.mul "_" (limit - Py.len v)).
Proof.
  unfold clean_field, Spec.field_value. rewrite replace_char_spec.
  cbv zeta. destruct (limit =? 0); [reflexivity|].
  destruct (_ >=? limit); reflexivity.
Qed.

(** With a positive limit the field is cut or padded to it. *)
Lemma clean_field_cases first rest limit :
  0 < limit ->
  clean_field (first :: rest) (Some limit)
  = Some (if limit <=? Py.len (Spec.field_value first)
          then Spec.truncate limit (Spec.field_value first)
          else Spec.pad limit (Spec.field_value first)).
Proof.
  intros Hpos. rewrite clean_field_unfold. cbv zeta.
  destruct (Z.eqb_spec limit 0) as [->|_]; [lia|].
  rewrite Z.geb_leb. destruct (limit <=? _); [|reflexivity].
  unfold Py.slice_to, Spec.truncate.
  destruct (Z.ltb_spec limit 0); [lia|reflexivity].
Qed.

Lemma clean_field_width first rest limit :
  0 < limit ->
  exists out, clean_field (first :: rest) (Some limit) = Some out
              /\ Py.len out = limit.
Proof.
  intros Hpos. rewrite (clean_field_cases _ _ _ Hpos).
  eexists; split; [reflexivity|].
  destruct (Z.leb_spec limit (Py.len (Spec.field_value first))) as [H|H];
    unfold Spec.truncate, Spec.pad, Py.len in H |- *.
  - rewrite length_take, Nat.min_l by lia. lia.
  - rewrite length_app, length_repeat_char. lia.
Qed.

Lemma clean_date_unfold first rest :
  clean_date (first :: rest)
  = Some (if String.eqb (Spec.delete_char " " (Spec.date_value first))
               "UploadDate"
          then EmptyString else Spec.date_value first).
Proof.
  unfold clean_date, Spec.date_value.
  rewrite split_first_spec, replace_char_spec, replace_delete_spec.
  cbv zeta. destruct (String.eqb _ _); reflexivity.
Qed.

Lemma clean_description_unfold first rest :
  clean_description (first :: rest)
  = match Spec.last_nonempty_line first with
    | Some line => Ok (Some (Spec.hyphenate line))
    | None => Raise AttributeError
    end.
Proof.
  unfold clean_description. cbv zeta. rewrite last_line_agree.
  destruct (Spec.last_nonempty_line first) as [line|]; [|reflexivity].
  cbn [Py.replace_method rbind]. now rewrite hyphenate_spec.
Qed.

(** An empty match list makes [clean_description] raise. *)
Lemma clean_description_nil : clean_description [] = Raise AttributeError.
Proof. reflexivity. Qed.

End Sanitizers.

(** C1 (amended).  A positive limit is an exact width: a cleaned field of
    at least [limit] characters is cut to its first [limit] characters,
    a shorter one is padded with underscores on the right, and either way
    the output has exactly [limit] characters; "Alice Bob" with limit 5
    gives "Alice" and "Al" gives "Al___". *)
Theorem clean_field_limit_is_exact_width :
  (forall (first : string) (rest : list string) (limit : Z),
      0 < limit ->
      let v := Spec.field_value first in
      (limit <= Py.len v ->
       clean_field (first :: rest) (Some limit) = Some (Spec.truncate limit v))
      /\ (Py.len v < limit ->
          clean_field (first :: rest) (Some limit) = Some (Spec.pad limit v))
      /\ exists out, clean_field (first :: rest) (Some limit) = Some out
                     /\ Py.len out = limit)
  /\ clean_field ["Alice Bob"] (Some 5) = Some "Alice"
  /\ clean_field ["Al"] (Some 5) = Some "Al___".
Proof.
  split; [|split; reflexivity].
  intros first rest limit Hpos v. subst v. repeat split.
  - intros H. rewrite (clean_field_cases _ _ _ Hpos).
    destruct (Z.leb_spec limit (Py.len (Spec.field_value first)));
      [reflexivity|lia].
  - intros H. rewrite (clean_field_cases _ _ _ Hpos).
    destruct (Z.leb_spec limit (Py.len (Spec.field_value first)));
      [lia|reflexivity].
  - now apply clean_field_width.
Qed.

Lemma clean_field_limit_is_exact_width_witness :
  0 < 5 /\ 5 <= Py.len (Spec.field_value "Alice Bob")
  /\ clean_field ["Alice Bob"] (Some 5)
     = Some (Spec.truncate 5 (Spec.field_value "Alice Bob")).
Proof.
  assert (Hpos : 0 < 5) by reflexivity.
  assert (Hlen : 5 <= Py.len (Spec.field_value "Alice Bob"))
    by (vm_compute; discriminate).
  split; [exact Hpos|split; [exact Hlen|]].
  exact (proj1 (proj1 clean_field_limit_is_exact_width "Alice Bob" [] 5 Hpos)
           Hlen).
Defined.

(** C1, as stated, fails: the cleaned "Alice Bob" has 9 characters, at
    least the limit 5, and is returned cut to "Alice". *)
Lemma clean_field_limit_not_a_floor :
  5 <= Py.len (Spec.field_value "Alice Bob")
  /\ clean_field ["Alice Bob"] (Some 5) = Some "Alice"
  /\ clean_field ["Alice Bob"] (Some 5) <> Some (Spec.field_value "Alice Bob")
  /\ clean_field ["Alice Bob"] (Some 5) <> Some "Alice_Bob".
Proof.
  split; [vm_compute; discriminate|].
  split; [reflexivity|]. split; vm_compute; discriminate.
Qed.

(** C4 (amended).  [clean_date] takes the first match up to the first
    " at", strips it and replaces every "/" by "_", spaces staying as they
    are; the result is that value, unless the value without its spaces is
    "UploadDate", when it is the empty string.  "March 1, 2020 at 10:00 PM"
    gives "March 1, 2020". *)
Theorem clean_date_keeps_spaces :
  (forall (first : string) (rest : list string),
      clean_date (first :: rest)
      = Some (if String.eqb (Spec.delete_char " " (Spec.date_value first))
                   "UploadDate"
              then EmptyString else Spec.date_value first))
  /\ clean_date ["March 1, 2020 at 10:00 PM"] = Some "March 1, 2020".
Proof. split; [apply clean_date_unfold|reflexivity]. Qed.

(** C4, as stated, fails twice: the spaces of the example date are not
    replaced, and the placeholder "UploadDate" is not returned as it is. *)
Lemma clean_date_not_underscored :
  clean_date ["March 1, 2020 at 10:00 PM"] = Some "March 1, 2020"
  /\ clean_date ["March 1, 2020 at 10:00 PM"] <> Some "March_1,_2020"
  /\ clean_date ["UploadDate"] <> Some (Spec.date_value "UploadDate").
Proof. split; [reflexivity|]. split; vm_compute; discriminate. Qed.

(** C7.  When the first match, cut at " at", stripped, with "/" replaced
    by "_" and its spaces deleted, is "UploadDate", [clean_date] returns
    the empty string and not [None]; so it does on ["UploadDate"]. *)
Theorem clean_date_sentinel :
  (forall (first : string) (rest : list string),
      Spec.delete_char " " (Spec.date_value first) = "UploadDate" ->
      clean_date (first :: rest) = Some EmptyString)
  /\ clean_date ["UploadDate"] = Some EmptyString.
Proof.
  split; [|reflexivity].
  intros first rest H. rewrite clean_date_unfold, H. reflexivity.
Qed.

Lemma clean_date_sentinel_witness :
  Spec.delete_char " " (Spec.date_value "Upload Date at 9:00 AM") = "UploadDate"
  /\ clean_date ["Upload Date at 9:00 AM"; "03/01/2020"] = Some EmptyString.
Proof.
  assert (H : Spec.delete_char " " (Spec.date_value "Upload Date at 9:00 AM")
              = "UploadDate") by reflexivity.
  split; [exact H|].
  exact (proj1 clean_date_sentinel "Upload Date at 9:00 AM" ["03/01/2020"] H).
Defined.

(** C5 (amended).  When the stripped first match has a line that is not
    empty, [clean_description] returns the last such line with every space
    and underscore replaced by a hyphen; the blob "Foo\n\nBar Baz\n", which
    is what the parser captures before the anchor, gives "Bar-Baz". *)
Theorem clean_description_last_nonempty_line :
  (forall (first : string) (rest : list string) (line : string),
      Spec.last_nonempty_line first = Some line ->
      clean_description (first :: rest) = Ok (Some (Spec.hyphenate line)))
  /\ clean_description [blob_captured] = Ok (Some "Bar-Baz").
Proof.
  split; [|reflexivity].
  intros first rest line H. now rewrite clean_description_unfold, H.
Qed.

Lemma clean_description_last_nonempty_line_witness :
  Spec.last_nonempty_line blob_captured = Some "Bar Baz"
  /\ clean_description [blob_captured; "ignored"]
     = Ok (Some (Spec.hyphenate "Bar Baz")).
Proof.
  assert (H : Spec.last_nonempty_line blob_captured = Some "Bar Baz")
    by reflexivity.
  split; [exact H|].
  exact (proj1 clean_description_last_nonempty_line blob_captured ["ignored"]
           "Bar Baz" H).
Defined.

(** C5, as stated, fails on its example: with the anchor as the last line
    of the blob, the last line that is not empty is the anchor. *)
Lemma clean_description_example_keeps_anchor :
  clean_description [blob_with_anchor] = Ok (Some "Description")
  /\ clean_description [blob_with_anchor] <> Ok (Some "Bar-Baz").
Proof. split; [reflexivity|vm_compute; discriminate]. Qed.

(** ** The field parser *)

Section Parser.

Implicit Types (text sub s : string).

Lemma startswith_length s sub :
  Py.startswith s sub = true -> (String.length sub <= String.length s)%nat.
Proof.
  unfold Py.startswith. revert s.
  induction sub as [|a sub IH]; intros [|c s] H; simpl in *;
    try lia; try discriminate.
  destruct (ascii_dec a c); [|discriminate].
  specialize (IH _ H). lia.
Qed.

Lemma find_bound sub s j :
  Py.find sub s = Some j -> (j + String.length sub <= String.length s)%nat.
Proof.
  revert j; induction s as [|c r IH]; intros j H.
  - destruct sub; [|discriminate]. injection H as <-. simpl. lia.
  - cbn [Py.find] in H.
    destruct (Py.startswith (String c r) sub) eqn:Hp.
    + injection H as <-. now apply startswith_length in Hp.
    + destruct (Py.find sub r) as [k|]; [|discriminate].
      injection H as <-. specialize (IH k eq_refl). simpl. lia.
Qed.

Lemma length_drop n s :
  String.length (Py.drop n s) = (String.length s - n)%nat.
Proof.
  revert s; induction n as [|n IH]; intros [|c s]; simpl; try reflexivity.
  apply IH.
Qed.

(** The scans do not run out of fuel: more fuel than the text has
    characters changes nothing. *)
Lemma findall_between_go_fuel opening closing n m text :
  Py.truthy closing = true ->
  (String.length text < n)%nat -> (String.length text < m)%nat ->
  Re.findall_between_go n opening closing text
  = Re.findall_between_go m opening closing text.
Proof.
  intros Hc. revert m text.
  induction n as [|n IH]; intros [|m] text Hn Hm; try lia.
  cbn [Re.findall_between_go].
  destruct (Py.find opening text) as [i|] eqn:Hi; [|reflexivity].
  destruct (Py.find closing _) as [j|] eqn:Hj; [|reflexivity].
  f_equal. apply find_bound in Hi, Hj.
  rewrite length_drop in Hj.
  assert (0 < String.length closing)%nat
    by (destruct closing; [discriminate|simpl; lia]).
  apply IH; rewrite !length_drop; lia.
Qed.

Lemma length_take_while p s :
  (String.length (Py.take_while p s) <= String.length s)%nat.
Proof.
  induction s as [|c r IH]; simpl; [lia|].
  destruct (p c); simpl; lia.
Qed.

Lemma findall_job_go_fuel n m text :
  (String.length text < n)%nat -> (String.length text < m)%nat ->
  Re.findall_job_go n text = Re.findall_job_go m text.
Proof.
  revert m text.
  induction n as [|n IH]; intros [|m] text Hn Hm; try lia.
  cbn [Re.findall_job_go].
  destruct (Py.find "Job #:" text) as [i|] eqn:Hi; [|reflexivity].
  apply find_bound in Hi. cbn [String.length] in Hi.
  assert (Hretry : Re.findall_job_go n (Py.drop (S i) text)
                   = Re.findall_job_go m (Py.drop (S i) text))
    by (apply IH; rewrite length_drop; lia).
  destruct (Py.drop (i + 6) text) as [|c r] eqn:Hd; [exact Hretry|].
  assert (Hr : (String.length r < String.length text)%nat).
  { pose proof (length_drop (i + 6) text) as Hl. rewrite Hd in Hl.
    simpl in Hl. lia. }
  destruct (Py.isspace c && Py.truthy _); [|exact Hretry].
  f_equal. apply IH; rewrite length_drop; lia.
Qed.

(** The description pattern has no match exactly when the text does not
    hold the anchor. *)
Lemma findall_description_nil text :
  Re.findall_between "" "Description" text = []
  <-> Py.find "Description" text = None.
Proof.
  unfold Re.findall_between. cbn [Re.findall_between_go].
  replace (Py.find "" text) with (Some O) by (destruct text; reflexivity).
  cbn [Py.drop Nat.add String.length].
  destruct (Py.find "Description" text); split; congruence.
Qed.

(** A page whose text has no match for the description pattern makes
    the parser raise. *)
Lemma parse_raises_when_no_description text :
  description_matches text = [] ->
  parse_text_to_fields text = Raise AttributeError.
Proof.
  unfold description_matches, parse_text_to_fields. intros H.
  cbv zeta. rewrite H. reflexivity.
Qed.

Lemma parse_uploaded_by text fields :
  parse_text_to_fields text = Ok fields ->
  uploaded_by fields = clean_field (uploaded_by_matches text) (Some 5).
Proof.
  unfold parse_text_to_fields, uploaded_by_matches. cbv zeta.
  destruct (clean_description _) as [d|e]; [|discriminate].
  cbn [rbind]. intros [= <-]. reflexivity.
Qed.

End Parser.

(** C3, on the code: the parser raises where the claim has it return
    nulls.  [clean_description] raises on the empty match list, and so
    does [parse_text_to_fields] on a text without any of the tokens. *)
Theorem parse_raises_without_tokens :
  clean_description [] = Raise AttributeError
  /\ parse_text_to_fields EmptyString = Raise AttributeError
  /\ parse_text_to_fields "Cover sheet, no fields" = Raise AttributeError.
Proof. repeat split; reflexivity. Qed.

(** C10.  When the "Uploaded By" pattern matches in the text of a page,
    the cleaned first match, cut to 5 characters when it is longer and
    padded with underscores to 5 when it is shorter, has exactly 5
    characters, and it is the [uploaded_by] of every record
    [parse_text_to_fields] returns. *)
Theorem parse_uploaded_by_width (text first : string) (rest : list string) :
  uploaded_by_matches text = first :: rest ->
  let v := Spec.field_value first in
  let out := if 5 <=? Py.len v then Spec.truncate 5 v else Spec.pad 5 v in
  Py.len out = 5
  /\ clean_field (uploaded_by_matches text) (Some 5) = Some out
  /\ forall fields, parse_text_to_fields text = Ok fields ->
       uploaded_by fields = Some out.
Proof.
  intros Hm v out.
  assert (Hout : clean_field (uploaded_by_matches text) (Some 5) = Some out)
    by (rewrite Hm; now apply clean_field_cases).
  split; [|split; [exact Hout|]].
  - destruct (clean_field_width first rest 5 ltac:(lia)) as (out' & H & Hlen).
    rewrite <- Hm, Hout in H. now injection H as ->.
  - intros fields Hparse. now rewrite (parse_uploaded_by _ _ Hparse).
Qed.

Lemma parse_uploaded_by_width_witness :
  uploaded_by_matches full_page_text = ["Alice Bob"]
  /\ parse_text_to_fields full_page_text
     = Ok (PageFields (Some "Alice") (Some "03_01_2020") (Some "03_02_2020")
             (Some "Roof-leak-north") (Some "4711"))
  /\ Some "Alice" = Some (Spec.truncate 5 (Spec.field_value "Alice Bob")).
Proof.
  assert (Hm : uploaded_by_matches full_page_text = ["Alice Bob"])
    by reflexivity.
  split; [exact Hm|]. split; [reflexivity|].
  exact (proj2 (proj2 (parse_uploaded_by_width full_page_text "Alice Bob" []
                         Hm)) _ eq_refl).
Defined.

(** ** The reorganizer *)

Section Reorganizer.

Implicit Types (s base dir : string) (w : world) (e : env).

(** Replacing the runs of characters outside [\w] by nothing keeps
    exactly the characters of [\w]. *)
Lemma sub_nonword_go_empty in_run s :
  Re.sub_nonword_go EmptyString in_run s = Spec.strip_nonword s.
Proof.
  unfold Spec.strip_nonword. revert in_run.
  induction s as [|c r IH]; intros in_run; [reflexivity|].
  cbn [Re.sub_nonword_go Spec.filter_chars].
  destruct (Py.isword c); [now rewrite IH|].
  destruct in_run; cbn; apply IH.
Qed.

Lemma new_name_base_spec page_number description taken_date job_number :
  new_name_base page_number description taken_date job_number
  = Spec.strip_nonword
      (Spec.raw_name_base page_number description taken_date job_number).
Proof.
  unfold new_name_base, Re.sub_nonword, Spec.raw_name_base.
  rewrite sub_nonword_go_empty.
  destruct taken_date as [[|c r]|]; reflexivity.
Qed.

Lemma strip_nonword_isword s :
  Spec.filter_chars (fun c => negb (Py.isword c)) (Spec.strip_nonword s)
  = EmptyString.
Proof.
  unfold Spec.strip_nonword.
  induction s as [|c r IH]; [reflexivity|].
  cbn [Spec.filter_chars]. destruct (Py.isword c) eqn:Hc; [|exact IH].
  cbn [Spec.filter_chars]. now rewrite Hc.
Qed.

(** The loop is not entered when the first name is free. *)
Lemma unique_name_first_free dir base w :
  Os.path_exists (Path.join dir (base +:+ ".jpeg")) w = false ->
  unique_name dir base w = base +:+ ".jpeg".
Proof.
  unfold unique_name. cbn [unique_name_go]. now intros ->.
Qed.

(** *** The loop of [rename_jpeg] ends at the first free name *)

Lemma app_inv_tail_string s1 s2 t : s1 +:+ t = s2 +:+ t -> s1 = s2.
Proof.
  revert s2; induction s1 as [|c s1 IH]; intros [|d s2] H; simpl in H.
  - reflexivity.
  - apply (f_equal String.length) in H.
    rewrite !length_app in H. simpl in H. lia.
  - apply (f_equal String.length) in H.
    rewrite !length_app in H. simpl in H. lia.
  - injection H as -> H. f_equal. now apply IH.
Qed.

Lemma all_slashes_app s1 s2 :
  Path.all_slashes (s1 +:+ s2) = Path.all_slashes s1 && Path.all_slashes s2.
Proof.
  induction s1 as [|c s1 IH]; simpl; [reflexivity|].
  rewrite IH. now destruct (Ascii.eqb c "/").
Qed.

Lemma candidate_not_slashes base k :
  Path.all_slashes (Spec.candidate base k) = false.
Proof.
  unfold Spec.candidate.
  destruct (k =? 0); rewrite all_slashes_app; apply andb_false_r.
Qed.

Lemma join_not_slashes dir s :
  Path.all_slashes s = false -> Path.all_slashes (Path.join dir s) = false.
Proof.
  intros H. unfold Path.join.
  destruct (Py.startswith s "/"); [exact H|].
  destruct (_ || _); rewrite !all_slashes_app, H;
    rewrite ?andb_false_r; reflexivity.
Qed.

Lemma app_assoc_string s1 s2 s3 :
  (s1 +:+ s2) +:+ s3 = s1 +:+ (s2 +:+ s3).
Proof.
  induction s1 as [|c s1 IH]; [reflexivity|].
  change (String c ((s1 +:+ s2) +:+ s3) = String c (s1 +:+ s2 +:+ s3)).
  now rewrite IH.
Qed.

Lemma rstrip_slashes_jpeg s :
  Path.rstrip_slashes (s +:+ ".jpeg") = s +:+ ".jpeg".
Proof.
  induction s as [|c s IH]; [reflexivity|].
  change (String c s +:+ ".jpeg") with (String c (s +:+ ".jpeg")).
  cbn [Path.rstrip_slashes]. rewrite IH. destruct s; reflexivity.
Qed.

Lemma candidate_jpeg base k : exists s, Spec.candidate base k = s +:+ ".jpeg".
Proof.
  unfold Spec.candidate. destruct (k =? 0).
  - now exists base.
  - exists (base +:+ "_" +:+ pretty k).
    now rewrite !app_assoc_string.
Qed.

Lemma join_candidate_normal dir base k :
  Path.normal (Path.join dir (Spec.candidate base k))
  = Path.join dir (Spec.candidate base k).
Proof.
  unfold Path.normal.
  rewrite (join_not_slashes _ _ (candidate_not_slashes base k)).
  destruct (candidate_jpeg base k) as [s ->]. unfold Path.join.
  destruct (Py.startswith _ "/"); [apply rstrip_slashes_jpeg|].
  destruct (_ || _); rewrite <- ?app_assoc_string;
    apply rstrip_slashes_jpeg.
Qed.

Lemma exists_in_entries p w :
  Os.path_exists p w = true -> Path.all_slashes p = false ->
  Path.normal p = p ->
  p ∈ dom (files w) ∪ dirs w.
Proof.
  unfold Os.path_exists, Os.isfile, Os.isdir. intros H Hs Hn.
  rewrite Hs, Hn in H. destruct (Py.truthy p); [|discriminate].
  cbn in H. apply orb_prop in H as [H|H].
  - apply bool_decide_eq_true in H. apply elem_of_union_l.
    now apply elem_of_dom.
  - apply bool_decide_eq_true in H. now apply elem_of_union_r.
Qed.

Lemma candidate_startswith base j k :
  Py.startswith (Spec.candidate base j) "/"
  = Py.startswith (Spec.candidate base k) "/".
Proof.
  unfold Spec.candidate.
  destruct base as [|c b].
  - destruct (j =? 0), (k =? 0); reflexivity.
  - destruct (j =? 0), (k =? 0);
      repeat match goal with
             | |- context [String c b +:+ ?x] =>
                 change (String c b +:+ x) with (String c (b +:+ x))
             end;
      now rewrite !startswith_char.
Qed.

Lemma candidate_inj base j k :
  Spec.candidate base j = Spec.candidate base k -> j = k.
Proof.
  unfold Spec.candidate.
  destruct (Z.eqb_spec j 0) as [->|Hj], (Z.eqb_spec k 0) as [->|Hk];
    intros H; [reflexivity| | |];
    apply (inj (String.app base)) in H; simpl in H; try discriminate H.
  injection H as H.
  change (pretty j +:+ ".jpeg" = pretty k +:+ ".jpeg") in H.
  apply app_inv_tail_string in H.
  now apply (inj pretty) in H.
Qed.

Lemma join_inj dir s1 s2 :
  Py.startswith s1 "/" = Py.startswith s2 "/" ->
  Path.join dir s1 = Path.join dir s2 -> s1 = s2.
Proof.
  unfold Path.join. intros ->.
  destruct (Py.startswith s2 "/"); [auto|].
  destruct (_ || _); intros H; apply (inj (String.app dir)) in H;
    [exact H|]. simpl in H. now injection H.
Qed.

(** The loop, entered at [suffix], leaves with the first candidate from
    there on that names no entry, or with the last one its fuel reaches. *)
Lemma unique_name_go_spec dir base w fuel suffix :
  0 <= suffix ->
  exists k,
    suffix <= k <= suffix + Z.of_nat fuel
    /\ unique_name_go fuel dir base suffix (Spec.candidate base suffix) w
       = Spec.candidate base k
    /\ (forall j, suffix <= j < k ->
          Os.path_exists (Path.join dir (Spec.candidate base j)) w = true)
    /\ (k < suffix + Z.of_nat fuel ->
        Os.path_exists (Path.join dir (Spec.candidate base k)) w = false).
Proof.
  revert suffix; induction fuel as [|fuel IH]; intros suffix Hs.
  - exists suffix. split; [lia|]. split; [reflexivity|].
    split; intros; lia.
  - cbn [unique_name_go].
    destruct (Os.path_exists _ w) eqn:He.
    + cbv zeta.
      replace (base +:+ "_" +:+ pretty (suffix + 1) +:+ ".jpeg")
        with (Spec.candidate base (suffix + 1))
        by (unfold Spec.candidate;
            destruct (Z.eqb_spec (suffix + 1) 0); [lia|reflexivity]).
      destruct (IH (suffix + 1)) as (k & Hk & Heq & Hall & Hfree); [lia|].
      exists k. split; [lia|]. split; [exact Heq|]. split.
      * intros j Hj. destruct (Z.eq_dec j suffix) as [->|Hne];
          [exact He|apply Hall; lia].
      * intros Hlt. apply Hfree. lia.
    + exists suffix. split; [lia|]. split; [reflexivity|].
      split; [intros; lia|intros; exact He].
Qed.

(** More candidates than the world has entries cannot all be taken. *)
Lemma candidates_not_all_taken dir base w n :
  (size (files w) + size (dirs w) < n)%nat ->
  ~ (forall j, 0 <= j < Z.of_nat n ->
       Os.path_exists (Path.join dir (Spec.candidate base j)) w = true).
Proof.
  intros Hn Hall.
  set (names := (fun j => Path.join dir (Spec.candidate base j))
                  <$> seqZ 0 (Z.of_nat n)).
  assert (Hnodup : NoDup names).
  { apply NoDup_fmap_2_strong; [|apply NoDup_seqZ].
    intros j k _ _ H. apply join_inj in H; [|apply candidate_startswith].
    now apply candidate_inj in H. }
  assert (Hsub : (list_to_set names : gset string) ⊆ dom (files w) ∪ dirs w).
  { intros p Hp. apply elem_of_list_to_set in Hp.
    apply list_elem_of_fmap in Hp as (j & -> & Hj).
    apply elem_of_seqZ in Hj.
    apply exists_in_entries; [apply Hall; lia| |].
    - apply join_not_slashes, candidate_not_slashes.
    - apply join_candidate_normal. }
  apply subseteq_size in Hsub.
  rewrite size_list_to_set in Hsub by exact Hnodup.
  unfold names in Hsub. rewrite length_fmap, length_seqZ in Hsub.
  rewrite size_union_alt, size_dom in Hsub.
  assert (Hd : dirs w ∖ dom (files w) ⊆ dirs w)
    by apply subseteq_difference_l, reflexivity.
  apply subseteq_size in Hd. lia.
Qed.

(** The loop always ends, with the first of the names
    [base.jpeg], [base_1.jpeg], [base_2.jpeg], ... that names no entry of
    the directory. *)
Lemma unique_name_spec dir base w :
  exists k,
    0 <= k
    /\ unique_name dir base w = Spec.candidate base k
    /\ (forall j, 0 <= j < k ->
          Os.path_exists (Path.join dir (Spec.candidate base j)) w = true)
    /\ Os.path_exists (Path.join dir (Spec.candidate base k)) w = false.
Proof.
  unfold unique_name.
  set (n := S (size (files w) + size (dirs w))).
  destruct (unique_name_go_spec dir base w n 0 ltac:(lia))
    as (k & Hk & Heq & Hall & Hfree).
  exists k. split; [lia|]. split; [exact Heq|]. split; [exact Hall|].
  destruct (Z.lt_ge_cases k (0 + Z.of_nat n)) as [Hlt|Hge]; [now apply Hfree|].
  exfalso. apply (candidates_not_all_taken dir base w n); [unfold n; lia|].
  intros j Hj. apply Hall. lia.
Qed.

Lemma unique_name_free dir base w :
  Os.path_exists (Path.join dir (unique_name dir base w)) w = false.
Proof.
  destruct (unique_name_spec dir base w) as (k & _ & -> & _ & Hfree).
  exact Hfree.
Qed.

End Reorganizer.

(** C2, on the code: the second of two calls with the same computed name
    gets no suffix, because the first call has moved its file out of the
    directory the loop looks in.  Where [os.rename] replaces an existing
    file the first image is lost; where it does not, the second image
    stays behind in the directory of the temp files and the failure is
    printed. *)
Theorem second_finalize_gets_no_suffix :
  files (finalize_twice (example_env true []))
  = {[ "out/Roof/Roof_1_4711.jpeg" := "second image" ]}
  /\ files (finalize_twice (example_env false []))
     = {[ "out/Roof/Roof_1_4711.jpeg" := "first image";
          "out/Roof_1_4711.jpeg" := "second image" ]}
  /\ stdout (finalize_twice (example_env false []))
     = [FailedToRename "out/b.jpeg" FileExistsError].
Proof. repeat split; vm_compute; reflexivity. Qed.

(** ** The driver *)

Section Driver.

Implicit Types (e : env) (w : world) (jpeg_files : gmap Z string).

(** A page that parses and has no fetched image is passed over: no
    exception and no change of the world. *)
Lemma process_page_absent e jpeg_files page_number page fields w :
  parse_text_to_fields (reader_text page) = Ok fields ->
  jpeg_files !! page_number = None ->
  process_page e jpeg_files page_number page w = (Ok tt, w).
Proof.
  intros Hparse Habsent. unfold process_page, bind, lift.
  now rewrite Hparse, Habsent.
Qed.

(** A page that does not parse stops the driver, fetched image or not. *)
Lemma process_page_raises e jpeg_files page_number page err w :
  parse_text_to_fields (reader_text page) = Raise err ->
  process_page e jpeg_files page_number page w = (Raise err, w).
Proof.
  intros Hparse. unfold process_page, bind, lift. now rewrite Hparse.
Qed.

(** *** The keys of the mapping are pages with a hyperlink *)

Lemma submit_pages_counts directory start pages tasks err t :
  submit_pages directory start pages = (tasks, err) ->
  In t tasks ->
  exists (i : nat) (page : pdf_page),
    pages !! i = Some page
    /\ task_count t = start + Z.of_nat i + 1
    /\ In (task_url t) (hyperlinks page).
Proof.
  revert start tasks err.
  induction pages as [|page pages IH]; intros start tasks err Hsub Hin.
  - injection Hsub as <- <-. destruct Hin.
  - cbn [submit_pages] in Hsub.
    destruct (parse_text_to_fields (plumber_text page)) as [fields|e'].
    + destruct (submit_pages directory (start + 1) pages) as [rest err']
        eqn:Hrest.
      injection Hsub as <- <-.
      apply List.in_app_or in Hin as [Hin|Hin].
      * apply List.in_map_iff in Hin as (url & <- & Hurl).
        exists O, page. cbn. split; [reflexivity|]. split; [lia|exact Hurl].
      * destruct (IH _ _ _ Hrest Hin) as (i & page' & Hi & Hc & Hu).
        exists (S i), page'. split; [exact Hi|]. split; [lia|exact Hu].
    + injection Hsub as <- <-. destruct Hin.
Qed.

Lemma run_tasks_counts e tasks w :
  exists futures,
    fst (run_tasks e tasks w) = Ok futures
    /\ forall jpeg_file page_number,
         In (Ok (jpeg_file, page_number)) futures ->
         exists t, In t tasks /\ task_count t = page_number.
Proof.
  revert w; induction tasks as [|t tasks IH]; intros w.
  - exists []. split; [reflexivity|]. intros ? ? [].
  - cbn [run_tasks].
    destruct (download_jpeg e _ _ _ _ w) as [r w1] eqn:Hd.
    destruct (IH w1) as (futures & Hrun & Hcounts).
    exists (r :: futures). unfold bind, ret.
    destruct (run_tasks e tasks w1) as [[fs|e'] w2]; [|discriminate Hrun].
    cbn in Hrun. injection Hrun as ->. split; [reflexivity|].
    intros jpeg_file page_number [Hr|Hin].
    + exists t. split; [now left|].
      unfold download_jpeg, bind, lift, ret in Hd.
      destruct (requests_get e (task_url t)); [|congruence].
      destruct (Os.write_file _ _ w) as [[?|?] ?]; congruence.
    + destruct (Hcounts _ _ Hin) as (t' & Ht' & Hc).
      exists t'. split; [now right|exact Hc].
Qed.

Lemma collect_keys futures (jpeg_files result : gmap Z string) page_number :
  collect futures jpeg_files = Ok result ->
  is_Some (result !! page_number) ->
  is_Some (jpeg_files !! page_number)
  \/ exists jpeg_file, In (Ok (jpeg_file, page_number)) futures.
Proof.
  revert jpeg_files; induction futures as [|[[f p]|e'] futures IH];
    intros jpeg_files Hc Hsome.
  - injection Hc as <-. now left.
  - cbn [collect] in Hc. destruct (IH _ Hc Hsome) as [Hin|[f' Hin]].
    + destruct (decide (p = page_number)) as [->|Hne].
      * right. exists f. now left.
      * left. now rewrite lookup_insert_ne in Hin.
    + right. exists f'. now right.
  - discriminate Hc.
Qed.

(** Every key of the mapping [download_jpegs_from_pdf] returns is the
    number of a page that has a hyperlink. *)
Lemma download_keys_have_links e pdf_file directory pages w jpeg_files w'
    page_number :
  (forall tasks t, In t (as_completed e tasks) -> In t tasks) ->
  open_pdf e pdf_file = Ok pages ->
  download_jpegs_from_pdf e pdf_file directory w = (Ok jpeg_files, w') ->
  is_Some (jpeg_files !! page_number) ->
  exists (i : nat) (page : pdf_page),
    pages !! i = Some page
    /\ page_number = Z.of_nat i + 1
    /\ hyperlinks page <> [].
Proof.
  intros Hsched Hopen Hdown Hsome.
  unfold download_jpegs_from_pdf, bind, lift in Hdown. rewrite Hopen in Hdown.
  destruct (submit_pages directory 0 pages) as [tasks err] eqn:Hsub.
  destruct (run_tasks_counts e (as_completed e tasks) w)
    as (futures & Hrun & Hcounts).
  destruct (run_tasks e (as_completed e tasks) w) as [[fs|e'] w1];
    [|discriminate Hrun].
  cbn in Hrun. injection Hrun as ->.
  destruct err as [err|]; [discriminate Hdown|].
  destruct (collect futures ∅) as [m|e'] eqn:Hcollect; [|discriminate Hdown].
  injection Hdown as <- <-.
  destruct (collect_keys _ _ _ _ Hcollect Hsome) as [Hempty|[f Hin]].
  { rewrite lookup_empty in Hempty. now destruct Hempty. }
  destruct (Hcounts _ _ Hin) as (t & Ht & Hc).
  apply Hsched in Ht.
  destruct (submit_pages_counts _ _ _ _ _ _ Hsub Ht) as (i & page & Hi & Hp & Hu).
  exists i, page. split; [exact Hi|]. split; [lia|].
  intros Hnil. rewrite Hnil in Hu. destruct Hu.
Qed.

End Driver.

(** C8, on the code: a page without hyperlink is not passed over when its
    text lacks the anchor "Description".  Both passes parse the text of
    every page before they look at its hyperlinks or at the mapping, and
    the parser raises; for a document of a photo page and such a cover
    page the image of the photo page is fetched and the run ends with the
    exception, no file renamed. *)
Theorem page_without_hyperlink_stops_driver :
  fst (process_pdf (example_env true [photo_page; cover_page])
         "report.pdf" "out" empty_world)
  = Raise AttributeError
  /\ files (snd (process_pdf (example_env true [photo_page; cover_page])
                   "report.pdf" "out" empty_world))
     = {[ "out/Roof-leak-north_1.jpeg" := "image of https://images.example/1" ]}
  /\ fst (process_pdf (example_env true [cover_page])
            "report.pdf" "out" empty_world)
     = Raise AttributeError
  /\ process_page (example_env true [cover_page]) ∅ 1 cover_page empty_world
     = (Raise AttributeError, empty_world).
Proof. repeat split; vm_compute; reflexivity. Qed.

(** ** The command line *)

(** C9.  With fewer than 3 arguments the script ends with an [IndexError]
    and has printed nothing; with more than 3 it prints the directory
    twice, then the usage message, and exits with status 1, the files
    untouched. *)
Theorem main_argument_check (e : env) (argv : list string) (w : world) :
  ((List.length argv < 3)%nat -> main e argv w = (Uncaught IndexError, w))
  /\ ((3 < List.length argv)%nat ->
      exists (directory : string) (w' : world),
        List.nth_error argv 2 = Some directory
        /\ main e argv w = (Exit 1, w')
        /\ stdout w'
           = stdout w
             ++ [ReprOf directory;
                 ReprOf (Py.replace double_quote EmptyString
                           (Py.replace (backslash +:+ backslash) backslash
                              directory));
                 UsageMessage]
        /\ files w' = files w /\ dirs w' = dirs w).
Proof.
  split.
  - intros Hlen.
    destruct argv as [|a0 [|a1 [|a2 argv]]]; try reflexivity.
    simpl in Hlen. lia.
  - intros Hlen.
    destruct argv as [|a0 [|a1 [|a2 [|a3 argv]]]]; simpl in Hlen; try lia.
    eexists a2, _. split; [reflexivity|].
    unfold main. cbn [argv_item List.nth_error List.length Nat.eqb negb].
    unfold print. cbn [files dirs stdout].
    split; [reflexivity|]. cbn [files dirs stdout].
    rewrite <- !List.app_assoc. repeat split.
Qed.

Lemma main_argument_check_witness :
  (List.length ["script.py"; "report.pdf"] < 3)%nat
  /\ main (example_env true []) ["script.py"; "report.pdf"] empty_world
     = (Uncaught IndexError, empty_world)
  /\ (3 < List.length ["script.py"; "report.pdf"; "out"; "extra"])%nat
  /\ fst (main (example_env true [])
            ["script.py"; "report.pdf"; "out"; "extra"] empty_world)
     = Exit 1.
Proof.
  assert (H2 : (List.length ["script.py"; "report.pdf"] < 3)%nat)
    by (simpl; lia).
  assert (H4 : (3 < List.length ["script.py"; "report.pdf"; "out"; "extra"])%nat)
    by (simpl; lia).
  split; [exact H2|]. split.
  - exact (proj1 (main_argument_check (example_env true [])
                    ["script.py"; "report.pdf"] empty_world) H2).
  - split; [exact H4|].
    destruct (proj2 (main_argument_check (example_env true [])
                       ["script.py"; "report.pdf"; "out"; "extra"]
                       empty_world) H4)
      as (directory & w' & _ & Hmain & _).
    now rewrite Hmain.
Defined.

(** * Further properties of the code *)

(** ** What the sanitizers return *)

Section SanitizerResults.

Implicit Types (s r first line : string) (c a : ascii) (rest : list string).

Lemma occurs_app c s r : occurs c (s +:+ r) = occurs c s || occurs c r.
Proof.
  induction s as [|a s IH]; [reflexivity|].
  change (String a s +:+ r) with (String a (s +:+ r)).
  cbn [occurs]. now rewrite IH, orb_assoc.
Qed.

Lemma occurs_take c n s : occurs c s = false -> occurs c (Py.take n s) = false.
Proof.
  revert s; induction n as [|n IH]; intros [|a s] H; try reflexivity.
  cbn [Py.take occurs] in *. apply orb_false_elim in H as [Ha Hs].
  now rewrite Ha, (IH _ Hs).
Qed.

Lemma occurs_repeat c a n :
  Ascii.eqb a c = false -> occurs c (Py.repeat (String a EmptyString) n) = false.
Proof.
  intros Hne. induction n as [|n IH]; [reflexivity|].
  cbn [Py.repeat]. change (String a EmptyString +:+ ?x) with (String a x).
  cbn [occurs]. now rewrite Hne, IH.
Qed.

(** A map of the characters that sends nothing new to [c] brings no [c]. *)
Lemma occurs_map_chars c f s :
  (forall a, Ascii.eqb (f a) c = true -> Ascii.eqb a c = true) ->
  occurs c s = false -> occurs c (Spec.map_chars f s) = false.
Proof.
  intros Hf. induction s as [|a s IH]; intros H; [reflexivity|].
  cbn [Spec.map_chars occurs] in *. apply orb_false_elim in H as [Ha Hs].
  rewrite (IH Hs), orb_false_r.
  destruct (Ascii.eqb (f a) c) eqn:E; [|reflexivity].
  apply Hf in E. congruence.
Qed.

(** A map of the characters that sends nothing to [c] leaves no [c]. *)
Lemma occurs_map_chars_away c f s :
  (forall a, Ascii.eqb (f a) c = false) ->
  occurs c (Spec.map_chars f s) = false.
Proof.
  intros Hf. induction s as [|a s IH]; [reflexivity|].
  cbn [Spec.map_chars occurs]. now rewrite Hf, IH.
Qed.

Lemma occurs_replace_char a b s :
  Ascii.eqb b a = false -> occurs a (Spec.replace_char a b s) = false.
Proof.
  intros Hne. apply occurs_map_chars_away. intros x.
  destruct (Ascii.eqb_spec x a) as [->|Hx]; [exact Hne|].
  now apply Ascii.eqb_neq.
Qed.

Lemma truthy_map_chars f s : Py.truthy (Spec.map_chars f s) = Py.truthy s.
Proof. now destruct s. Qed.

Lemma last_item_in {A : Type} (l : list A) (x : A) :
  Py.last_item l = Some x -> In x l.
Proof.
  unfold Py.last_item. induction l as [|y l IH]; [discriminate|].
  destruct l as [|z l].
  - cbn. intros [= ->]. now left.
  - intros H. right. now apply IH.
Qed.

(** The pieces of a text split at the line feeds hold no line feed. *)
Lemma split_pieces_no_nl s h t :
  Py.split_go Py.nl 0 s = (h, t) ->
  occurs nl_char h = false /\ Forall (fun p => occurs nl_char p = false) t.
Proof.
  revert h t; induction s as [|c r IH]; intros h t Hs.
  - injection Hs as <- <-. now split.
  - cbn [Py.split_go] in Hs. unfold Py.nl in Hs at 1.
    rewrite startswith_char in Hs.
    cbn [String.length Nat.pred Py.nl] in Hs. fold Py.nl in Hs.
    destruct (Py.split_go Py.nl 0 r) as [h' t'].
    destruct (IH h' t' eq_refl) as [Hh Ht].
    destruct (Ascii.eqb c "010") eqn:Hc; injection Hs as <- <-.
    + split; [reflexivity|now constructor].
    + split; [|exact Ht]. cbn [occurs]. rewrite Hh. unfold nl_char.
      now rewrite Hc.
Qed.

Lemma last_nonempty_line_facts first line :
  Spec.last_nonempty_line first = Some line ->
  Py.truthy line = true /\ occurs nl_char line = false.
Proof.
  unfold Spec.last_nonempty_line, Py.split. intros H.
  apply last_item_in in H. apply List.filter_In in H as [Hin Hne].
  split; [now destruct line|].
  destruct (Py.split_go Py.nl 0 (Py.strip first)) as [h t] eqn:Hs.
  destruct (split_pieces_no_nl _ _ _ Hs) as [Hh Ht].
  destruct Hin as [<-|Hin]; [exact Hh|].
  rewrite List.Forall_forall in Ht. now apply Ht.
Qed.

(** A first match is without a line that is not empty exactly when it
    holds white space only. *)
Lemma last_nonempty_line_none first :
  Spec.last_nonempty_line first = None <-> Py.strip first = EmptyString.
Proof.
  rewrite <- last_line_agree. unfold Py.split. split.
  - intros H. destruct (Py.truthy (Py.strip first)) eqn:Hne;
      [|now destruct (Py.strip first)].
    destruct (Py.split_go Py.nl 0 (Py.strip first)) as [h t] eqn:Hs.
    pose proof (last_piece_nonblank _ _ _ (rstrip_strip first) Hne Hs) as Hl.
    change (fun line => Py.truthy (Py.strip line)) with Spec.nonblank in H.
    rewrite (last_item_filter Spec.nonblank (h :: t) EmptyString
               ltac:(discriminate) Hl) in H.
    discriminate H.
  - intros ->. reflexivity.
Qed.

End SanitizerResults.

(** X1.  Whatever the limit, the field [clean_field] returns holds no
    space. *)
Theorem clean_field_no_space (field : list string) (limit : option Z)
    (out : string) :
  clean_field field limit = Some out -> occurs " " out = false.
Proof.
  destruct field as [|first rest]; [discriminate|].
  assert (Hv : occurs " " (Spec.field_value first) = false)
    by now apply occurs_replace_char.
  destruct limit as [limit|].
  - rewrite clean_field_unfold. cbv zeta. intros [= <-].
    destruct (limit =? 0); [exact Hv|].
    destruct (_ >=? limit).
    + unfold Py.slice_to. destruct (limit <? 0); now apply occurs_take.
    + rewrite occurs_app, Hv. now apply occurs_repeat.
  - unfold clean_field. rewrite replace_char_spec. now intros [= <-].
Qed.

Lemma clean_field_no_space_witness :
  clean_field ["  Alice Bob  "; "Carol"] (Some 12) = Some "Alice_Bob___"
  /\ occurs " " "Alice_Bob___" = false.
Proof.
  assert (H : clean_field ["  Alice Bob  "; "Carol"] (Some 12)
              = Some "Alice_Bob___") by reflexivity.
  split; [exact H|].
  exact (clean_field_no_space _ _ _ H).
Defined.

(** X2.  A limit of 0 is no limit, and a negative limit cuts that many
    characters off the end of the cleaned field. *)
Theorem clean_field_limit_edges (first : string) (rest : list string) :
  clean_field (first :: rest) (Some 0) = clean_field (first :: rest) None
  /\ clean_field (first :: rest) None = Some (Spec.field_value first)
  /\ forall limit, limit < 0 ->
       clean_field (first :: rest) (Some limit)
       = Some (Py.take (Z.to_nat (Py.len (Spec.field_value first) + limit))
                 (Spec.field_value first)).
Proof.
  assert (Hnone : clean_field (first :: rest) None
                  = Some (Spec.field_value first))
    by (unfold clean_field; now rewrite replace_char_spec).
  split; [now rewrite clean_field_unfold, Hnone|].
  split; [exact Hnone|].
  intros limit Hneg. rewrite clean_field_unfold. cbv zeta.
  destruct (Z.eqb_spec limit 0); [lia|].
  unfold Py.slice_to.
  destruct (Z.geb_spec (Py.len (Spec.field_value first)) limit) as [_|Hlt];
    [|unfold Py.len in Hlt; lia].
  destruct (Z.ltb_spec limit 0); [reflexivity|lia].
Qed.

Lemma clean_field_limit_edges_witness :
  -4 < 0 /\ clean_field ["Alice Bob"] (Some (-4)) = Some "Alice".
Proof.
  assert (H : -4 < 0) by reflexivity.
  split; [exact H|].
  exact (proj2 (proj2 (clean_field_limit_edges "Alice Bob" [])) (-4) H).
Defined.

(** X3.  The date [clean_date] returns holds no slash. *)
Theorem clean_date_no_slash (date_field : list string) (out : string) :
  clean_date date_field = Some out -> occurs "/" out = false.
Proof.
  destruct date_field as [|first rest]; [discriminate|].
  rewrite clean_date_unfold. intros [= <-].
  destruct (String.eqb _ _); [reflexivity|].
  now apply occurs_replace_char.
Qed.

Lemma clean_date_no_slash_witness :
  clean_date ["03/01/2020 at 10:00 PM"] = Some "03_01_2020"
  /\ occurs "/" "03_01_2020" = false.
Proof.
  assert (H : clean_date ["03/01/2020 at 10:00 PM"] = Some "03_01_2020")
    by reflexivity.
  split; [exact H|].
  exact (clean_date_no_slash _ _ H).
Defined.

(** X4.  [clean_description] never returns [None]: what it returns is a
    string that is not empty and holds no space, no underscore and no line
    feed. *)
Theorem clean_description_result (description_field : list string)
    (out : option string) :
  clean_description description_field = Ok out ->
  exists d, out = Some d
            /\ Py.truthy d = true
            /\ occurs " " d = false
            /\ occurs "_" d = false
            /\ occurs nl_char d = false.
Proof.
  destruct description_field as [|first rest]; [discriminate|].
  rewrite clean_description_unfold.
  destruct (Spec.last_nonempty_line first) as [line|] eqn:Hl; [|discriminate].
  intros [= <-]. destruct (last_nonempty_line_facts _ _ Hl) as [Hne Hnl].
  exists (Spec.hyphenate line). split; [reflexivity|].
  unfold Spec.hyphenate. rewrite truthy_map_chars. split; [exact Hne|].
  split; [|split].
  - apply occurs_map_chars_away. intros a.
    destruct (Ascii.eqb_spec a " ") as [->|Ha]; [reflexivity|].
    destruct (Ascii.eqb a "_"); [reflexivity|]. now apply Ascii.eqb_neq.
  - apply occurs_map_chars_away. intros a.
    destruct (Ascii.eqb a " "); [reflexivity|].
    destruct (Ascii.eqb_spec a "_") as [->|Ha]; [reflexivity|].
    now apply Ascii.eqb_neq.
  - apply occurs_map_chars; [|exact Hnl]. intros a.
    destruct (Ascii.eqb a " " || Ascii.eqb a "_"); [discriminate|auto].
Qed.

Lemma clean_description_result_witness :
  clean_description [blob_captured] = Ok (Some "Bar-Baz")
  /\ exists d, Some "Bar-Baz" = Some d /\ Py.truthy d = true.
Proof.
  assert (H : clean_description [blob_captured] = Ok (Some "Bar-Baz"))
    by reflexivity.
  split; [exact H|].
  destruct (clean_description_result _ _ H) as (d & Hd & Hne & _).
  exists d. split; [exact Hd|exact Hne].
Defined.

Lemma clean_description_raise_cases (description_field : list string) :
  (forall err, clean_description description_field = Raise err ->
               err = AttributeError)
  /\ (clean_description description_field = Raise AttributeError
      <-> match description_field with
          | [] => True
          | first :: _ => Py.strip first = EmptyString
          end).
Proof.
  destruct description_field as [|first rest].
  - split; [now intros err [= <-]|]. now split.
  - rewrite clean_description_unfold, <- last_nonempty_line_none.
    destruct (Spec.last_nonempty_line first); split;
      try discriminate; try (now intros err [= <-]); now split.
Qed.

(** X5.  [clean_description] raises, and then [AttributeError], exactly
    when the match list is empty or its first element holds white space
    only; later elements are never looked at. *)
Theorem clean_description_raises_iff (description_field : list string) :
  (forall err, clean_description description_field = Raise err ->
               err = AttributeError)
  /\ (clean_description description_field = Raise AttributeError
      <-> match description_field with
          | [] => True
          | first :: _ => Py.strip first = EmptyString
          end).
Proof. apply clean_description_raise_cases. Qed.

Lemma clean_description_raises_iff_witness :
  Py.strip (" " +:+ Py.nl +:+ "  ") = EmptyString
  /\ clean_description [" " +:+ Py.nl +:+ "  "; "Roof leak"]
     = Raise AttributeError.
Proof.
  assert (H : Py.strip (" " +:+ Py.nl +:+ "  ") = EmptyString) by reflexivity.
  split; [exact H|].
  exact (proj2 (proj2 (clean_description_raises_iff
                         [" " +:+ Py.nl +:+ "  "; "Roof leak"])) H).
Defined.

(** ** What the field parser returns *)

Section ParserResults.

Implicit Types (text s sub m : string) (c : ascii).

Lemma description_first_match text :
  List.hd_error (description_matches text)
  = (fun j => Py.take j (Py.replace "  " " " text))
      <$> Py.find "Description" (Py.replace "  " " " text).
Proof.
  unfold description_matches, Re.findall_between.
  cbn [Re.findall_between_go].
  replace (Py.find "" (Py.replace "  " " " text)) with (Some O)
    by (destruct (Py.replace "  " " " text); reflexivity).
  cbn [Py.drop Nat.add String.length].
  destruct (Py.find "Description" _); reflexivity.
Qed.

Lemma parse_raise text err :
  parse_text_to_fields text = Raise err
  <-> clean_description (description_matches text) = Raise err.
Proof.
  unfold parse_text_to_fields, description_matches. cbv zeta.
  destruct (clean_description _) as [d|e']; cbn [rbind]; split;
    congruence.
Qed.

Lemma parse_job_number text fields :
  parse_text_to_fields text = Ok fields ->
  job_number fields = List.hd_error (job_number_matches text).
Proof.
  unfold parse_text_to_fields, job_number_matches. cbv zeta.
  destruct (clean_description _) as [d|e']; [|discriminate].
  cbn [rbind]. intros [= <-]. cbn [job_number].
  destruct (Re.findall_job _); reflexivity.
Qed.

Lemma all_chars_take_while p s : all_chars p (Py.take_while p s) = true.
Proof.
  induction s as [|c r IH]; [reflexivity|].
  cbn [Py.take_while]. destruct (p c) eqn:Hc; [|reflexivity].
  cbn [all_chars]. now rewrite Hc, IH.
Qed.

Lemma findall_job_go_digits fuel text :
  Forall (fun m => Py.truthy m = true /\ all_chars Py.isdecimal m = true)
    (Re.findall_job_go fuel text).
Proof.
  revert text; induction fuel as [|fuel IH]; intros text; [constructor|].
  cbn [Re.findall_job_go].
  destruct (Py.find "Job #:" text) as [i|]; [|constructor].
  destruct (Py.drop (i + 6) text) as [|c r]; [apply IH|].
  destruct (Py.isspace c && Py.truthy _) eqn:Hc; [|apply IH].
  apply andb_prop in Hc as [_ Hd].
  constructor; [|apply IH]. split; [exact Hd|apply all_chars_take_while].
Qed.

Lemma findall_job_go_needs_literal fuel text :
  Py.find "Job #:" text = None -> Re.findall_job_go fuel text = [].
Proof. intros H. destruct fuel; [reflexivity|]. cbn. now rewrite H. Qed.

(** *** A capture ends before the first closing literal *)

Lemma startswith_take n s sub :
  Py.startswith (Py.take n s) sub = true -> Py.startswith s sub = true.
Proof.
  unfold Py.startswith. revert n s.
  induction sub as [|a sub IH]; intros n s H; [now destruct s|].
  destruct n as [|n], s as [|c s]; try discriminate H.
  cbn [Py.take] in H. simpl in H |- *.
  destruct (ascii_dec a c); [|discriminate]. now apply (IH n).
Qed.

Lemma find_take_none sub s j :
  Py.truthy sub = true -> Py.find sub s = Some j ->
  Py.find sub (Py.take j s) = None.
Proof.
  intros Hsub. revert j; induction s as [|c r IH]; intros j H.
  - destruct sub; discriminate.
  - cbn [Py.find] in H.
    destruct (Py.startswith (String c r) sub) eqn:Hp.
    + injection H as <-. destruct sub; [discriminate|reflexivity].
    + destruct (Py.find sub r) as [k|] eqn:Hk; [|discriminate].
      injection H as <-. cbn [Py.take Py.find].
      destruct (Py.startswith (String c (Py.take k r)) sub) eqn:Hp'.
      * apply (startswith_take (S k) (String c r)) in Hp'. congruence.
      * now rewrite (IH k eq_refl).
Qed.

Lemma findall_between_go_captures fuel opening closing text :
  Py.truthy closing = true ->
  Forall (fun m => Py.find closing m = None)
    (Re.findall_between_go fuel opening closing text).
Proof.
  intros Hc. revert text; induction fuel as [|fuel IH]; intros text;
    [constructor|].
  cbn [Re.findall_between_go].
  destruct (Py.find opening text) as [i|]; [|constructor].
  destruct (Py.find closing _) as [j|] eqn:Hj; [|constructor].
  constructor; [now apply find_take_none|apply IH].
Qed.

Lemma find_char_none c s :
  Py.find (String c EmptyString) s = None -> occurs c s = false.
Proof.
  induction s as [|a r IH]; [reflexivity|].
  cbn [Py.find occurs]. rewrite startswith_char.
  destruct (Ascii.eqb a c); [discriminate|].
  destruct (Py.find _ r); [discriminate|]. intros _. now apply IH.
Qed.

End ParserResults.

(** X6.  [parse_text_to_fields] raises nothing but [AttributeError], and
    it raises exactly when the text, its double spaces collapsed, does not
    hold "Description" or holds only white space before the first
    "Description". *)
Theorem parse_raises_iff (text : string) :
  (forall err, parse_text_to_fields text = Raise err -> err = AttributeError)
  /\ (parse_text_to_fields text = Raise AttributeError
      <-> match Py.find "Description" (Py.replace "  " " " text) with
          | None => True
          | Some j =>
              Py.strip (Py.take j (Py.replace "  " " " text)) = EmptyString
          end).
Proof.
  pose proof (clean_description_raise_cases (description_matches text))
    as [Honly Hiff].
  pose proof (description_first_match text) as Hhd.
  split.
  - intros err H. apply parse_raise in H. now apply Honly.
  - rewrite parse_raise, Hiff.
    destruct (description_matches text) as [|first rest];
      destruct (Py.find "Description" _) as [j|]; try discriminate Hhd;
      [reflexivity|].
    cbn in Hhd. injection Hhd as ->. reflexivity.
Qed.

Lemma parse_raises_iff_witness :
  Py.find "Description" (Py.replace "  " " " "  Description: roof") = Some 1%nat
  /\ parse_text_to_fields "  Description: roof" = Raise AttributeError.
Proof.
  split; [reflexivity|].
  exact (proj2 (proj2 (parse_raises_iff "  Description: roof")) eq_refl).
Defined.

(** X7.  The job number [parse_text_to_fields] returns is a string of
    decimal digits that is not empty, and it is [None] when the text does
    not hold "Job #:". *)
Theorem parse_job_number_digits (text : string) (fields : page_fields) :
  parse_text_to_fields text = Ok fields ->
  (forall job, job_number fields = Some job ->
     Py.truthy job = true /\ all_chars Py.isdecimal job = true)
  /\ (Py.find "Job #:" (Py.replace "  " " " text) = None ->
      job_number fields = None).
Proof.
  intros Hparse. rewrite (parse_job_number _ _ Hparse).
  unfold job_number_matches, Re.findall_job. split.
  - intros job Hjob.
    pose proof (findall_job_go_digits
                  (S (String.length (Py.replace "  " " " text)))
                  (Py.replace "  " " " text)) as Hall.
    destruct (Re.findall_job_go _ _) as [|m ms]; [discriminate|].
    injection Hjob as <-. now inversion Hall.
  - intros Hnone. now rewrite findall_job_go_needs_literal.
Qed.

Lemma parse_job_number_digits_witness :
  parse_text_to_fields full_page_text
  = Ok (PageFields (Some "Alice") (Some "03_01_2020") (Some "03_02_2020")
          (Some "Roof-leak-north") (Some "4711"))
  /\ all_chars Py.isdecimal "4711" = true.
Proof.
  split; [reflexivity|].
  exact (proj2 (proj1 (parse_job_number_digits full_page_text _ eq_refl)
                  "4711" eq_refl)).
Defined.

(** X8.  No match of the description pattern holds "Description", and no
    match of the "Uploaded By" pattern holds a line feed: a capture ends
    at the first text that closes the pattern. *)
Theorem captures_end_at_first_closing (text : string) :
  Forall (fun m => Py.find "Description" m = None) (description_matches text)
  /\ Forall (fun m => occurs nl_char m = false) (uploaded_by_matches text).
Proof.
  split.
  - now apply findall_between_go_captures.
  - eapply List.Forall_impl;
      [|apply (findall_between_go_captures _ _ Py.nl); reflexivity].
    intros m. apply find_char_none.
Qed.

(** ** What the reorganizer does to the world *)

Section ReorganizerEffects.

Implicit Types (e : env) (w : world) (s d name p : string).

Lemma keeps_ret {A : Type} (a : A) : keeps_files (ret a).
Proof. now intros w. Qed.

Lemma keeps_raise {A : Type} (err : exn) : keeps_files (@raise A err).
Proof. now intros w. Qed.

Lemma keeps_bind {A B : Type} (m : M A) (k : A -> M B) :
  keeps_files m -> (forall a, keeps_files (k a)) -> keeps_files (bind m k).
Proof.
  intros Hm Hk w. unfold bind. specialize (Hm w).
  destruct (m w) as [[a|err] w1]; cbn [snd] in Hm; [|exact Hm].
  destruct (Hk a w1) as [Hf Hs]. now rewrite Hf, Hs.
Qed.

Lemma keeps_try_except {A : Type} (m : M A) (handler : exn -> M A) :
  keeps_files m -> (forall err, keeps_files (handler err)) ->
  keeps_files (try_except m handler).
Proof.
  intros Hm Hh w. unfold try_except. specialize (Hm w).
  destruct (m w) as [[a|err] w1]; cbn [snd] in Hm; [exact Hm|].
  destruct (Hh err w1) as [Hf Hs]. now rewrite Hf, Hs.
Qed.

Lemma keeps_mkdir name : keeps_files (Os.mkdir name).
Proof.
  intros w. unfold Os.mkdir.
  destruct (Os.path_error name w); [now split|].
  destruct (Path.all_slashes name); [now split|].
  destruct (Path.too_long name); [now split|].
  destruct (_ || _); now split.
Qed.

Lemma keeps_last_mkdir name :
  keeps_files
    (try_except (Os.mkdir name)
       (fun err w =>
          match err with
          | ValueError => (Raise err, w)
          | _ => if Os.isdir name w then (Ok tt, w) else (Raise err, w)
          end)).
Proof.
  apply keeps_try_except; [apply keeps_mkdir|].
  intros err w0. destruct err; now destruct (Os.isdir name w0).
Qed.

Lemma keeps_makedirs_go fuel name : keeps_files (Os.makedirs_go fuel name).
Proof.
  revert name; induction fuel as [|fuel IH]; intros name.
  - intros w. cbn [Os.makedirs_go].
    destruct (Py.truthy (Path.basename name));
      destruct (_ && _); apply keeps_last_mkdir.
  - intros w. cbn [Os.makedirs_go].
    destruct (Py.truthy (Path.basename name));
      (destruct (_ && _); [|apply keeps_last_mkdir]);
      (apply keeps_bind;
       [apply keeps_try_except; [apply IH|];
        intros []; (apply keeps_ret || apply keeps_raise)
       |intros _; destruct (String.eqb _ ".");
        [apply keeps_ret|apply keeps_last_mkdir]]).
Qed.

Lemma keeps_makedirs name : keeps_files (Os.makedirs name).
Proof. apply keeps_makedirs_go. Qed.

(** *** What [os.rename] does *)

Lemma rename_result_stdout e src dst w w' :
  Os.rename_result e src dst w = Ok w' -> stdout w' = stdout w.
Proof.
  unfold Os.rename_result, Os.rename_file, Os.rename_dir.
  intros H. repeat case_match; simplify_eq; reflexivity.
Qed.

Lemma os_rename_stdout e src dst w :
  stdout (snd (Os.rename e src dst w)) = stdout w.
Proof.
  unfold Os.rename.
  destruct (Os.rename_result e src dst w) as [w'|err] eqn:H; [|reflexivity].
  now apply rename_result_stdout in H.
Qed.

(** A failing [os.rename] changes nothing. *)
Lemma os_rename_raise e src dst w err w' :
  Os.rename e src dst w = (Raise err, w') -> w' = w.
Proof.
  unfold Os.rename. destruct (Os.rename_result e src dst w); congruence.
Qed.

(** [os.rename] of a regular file fails, or moves its content. *)
Lemma os_rename_file e src dst w content :
  files w !! src = Some content ->
  (exists err, Os.rename e src dst w = (Raise err, w))
  \/ Os.rename e src dst w
     = (Ok tt, World (<[dst := content]> (delete src (files w)))
                 (dirs w) (stdout w)).
Proof.
  intros Hsrc. unfold Os.rename, Os.rename_result. rewrite Hsrc.
  unfold Os.rename_file.
  repeat case_match; simplify_eq; eauto.
Qed.

(** [os.rename] of what is no regular file and no directory fails. *)
Lemma os_rename_nothing e src dst w :
  files w !! src = None -> Os.isdir src w = false ->
  exists err, Os.rename e src dst w = (Raise err, w).
Proof.
  intros Hsrc Hdir. unfold Os.rename, Os.rename_result. rewrite Hsrc.
  destruct (Path.has_nul src || Path.has_nul dst); [eauto|].
  destruct (Py.truthy src) eqn:Ht; cbn [negb orb]; [|eauto].
  destruct (negb (Py.truthy dst)); [eauto|].
  destruct (Os.parents_error src w); [eauto|].
  destruct (Os.parents_error dst w); [eauto|].
  destruct (Path.all_slashes src) eqn:Ha; [eauto|].
  destruct (Path.too_long src); [eauto|].
  destruct (Os.isfile (Path.normal src) w); [eauto|].
  unfold Os.isdir in Hdir. rewrite Ht, Ha in Hdir. cbn in Hdir.
  rewrite Hdir. eauto.
Qed.

(** [os.rename] of a path at which nothing exists fails. *)
Lemma os_rename_missing e src dst w :
  Os.path_exists src w = false ->
  exists err, Os.rename e src dst w = (Raise err, w).
Proof.
  intros Hmissing. unfold Os.path_exists in Hmissing.
  destruct (Py.truthy src) eqn:Ht.
  - cbn in Hmissing. apply orb_false_elim in Hmissing as [Hfile Hdir].
    apply os_rename_nothing; [|exact Hdir].
    unfold Os.isfile in Hfile. apply bool_decide_eq_false in Hfile.
    destruct (files w !! src) eqn:E; [|reflexivity].
    exfalso. apply Hfile. eauto.
  - unfold Os.rename, Os.rename_result. rewrite Ht.
    destruct (Path.has_nul src || Path.has_nul dst); cbn; eauto.
Qed.

(** Unless its source is a directory, [os.rename] leaves the directories
    as they are. *)
Lemma os_rename_dirs e src dst w :
  Os.isdir src w = false -> dirs (snd (Os.rename e src dst w)) = dirs w.
Proof.
  intros Hdir. destruct (files w !! src) as [content|] eqn:Hsrc.
  - destruct (os_rename_file e src dst w content Hsrc) as [[err ->]| ->];
      reflexivity.
  - destruct (os_rename_nothing e src dst w Hsrc Hdir) as [err ->].
    reflexivity.
Qed.

(** *** What [move_jpeg_to_directory] and [rename_jpeg] do *)

Lemma move_stdout e old_file description w :
  stdout (snd (move_jpeg_to_directory e old_file description w)) = stdout w.
Proof.
  unfold move_jpeg_to_directory.
  destruct description as [desc|]; [|reflexivity].
  unfold join_value, bind at 1, ret. unfold bind.
  destruct (keeps_makedirs (Path.join (Path.dirname old_file) desc) w)
    as [_ Hs].
  destruct (Os.makedirs _ w) as [[[]|err] w1]; cbn [snd] in Hs |- *;
    [|exact Hs].
  now rewrite os_rename_stdout.
Qed.

Lemma move_without_description e old_file w :
  move_jpeg_to_directory e old_file None w = (Raise TypeError, w).
Proof. reflexivity. Qed.

(** [move_jpeg_to_directory] of a regular file fails, the files as they
    were, or moves the content under the directory of the description. *)
Lemma move_outcome e old_file description w content :
  files w !! old_file = Some content ->
  (exists err w',
      move_jpeg_to_directory e old_file description w = (Raise err, w')
      /\ files w' = files w /\ stdout w' = stdout w)
  \/ (exists desc w',
        description = Some desc
        /\ move_jpeg_to_directory e old_file description w = (Ok tt, w')
        /\ files w'
           = <[Path.join (Path.join (Path.dirname old_file) desc)
                 (Path.basename old_file) := content]>
               (delete old_file (files w))
        /\ stdout w' = stdout w).
Proof.
  intros Hold. unfold move_jpeg_to_directory.
  destruct description as [desc|];
    [|left; exists TypeError, w; repeat split; reflexivity].
  unfold join_value, bind at 1, ret.
  unfold bind.
  destruct (keeps_makedirs (Path.join (Path.dirname old_file) desc) w)
    as [Hf Hs].
  destruct (Os.makedirs _ w) as [[[]|err] w1]; cbn [snd] in Hf, Hs.
  - rewrite <- Hf in Hold.
    destruct (os_rename_file e old_file
                (Path.join (Path.join (Path.dirname old_file) desc)
                   (Path.basename old_file)) w1 content Hold)
      as [[err ->]| ->].
    + left. exists err, w1. split; [reflexivity|]. now split.
    + right. exists desc. eexists. split; [reflexivity|].
      split; [reflexivity|]. cbn [files stdout]. rewrite Hf. now split.
  - left. exists err, w1. split; [reflexivity|]. now split.
Qed.

(** [rename_jpeg] returns, and has printed nothing or one failure. *)
Lemma rename_jpeg_ok e old_file page_number description uploaded_by
    taken_date job_number w :
  exists w',
    rename_jpeg e old_file page_number description uploaded_by taken_date
      job_number w = (Ok tt, w')
    /\ (stdout w' = stdout w
        \/ exists err, stdout w' = stdout w ++ [FailedToRename old_file err]).
Proof.
  unfold rename_jpeg, try_except, bind.
  match goal with
  | |- context [Os.rename e old_file ?new_file w] =>
      pose proof (os_rename_stdout e old_file new_file w) as Hs;
      destruct (Os.rename e old_file new_file w) as [[[]|err] w1] eqn:Hr;
      cbn [snd] in Hs;
      [pose proof (move_stdout e new_file description w1) as Hm;
       destruct (move_jpeg_to_directory e new_file description w1)
         as [[[]|err] w2]; cbn [snd] in Hm|]
  end.
  - eexists. split; [reflexivity|]. left. congruence.
  - eexists. split; [reflexivity|]. right. exists err.
    unfold print. cbn [stdout]. congruence.
  - eexists. split; [reflexivity|]. right. exists err.
    unfold print. cbn [stdout]. congruence.
Qed.

(** The three ways a call of [rename_jpeg] for a regular file ends: the
    first rename fails, the move fails after it, or both succeed. *)
Lemma rename_jpeg_outcome e old_file page_number description uploaded_by
    taken_date job_number w content :
  let new_file :=
    Path.join (Path.dirname old_file)
      (unique_name (Path.dirname old_file)
         (new_name_base page_number description taken_date job_number) w) in
  files w !! old_file = Some content ->
  exists w',
    rename_jpeg e old_file page_number description uploaded_by taken_date
      job_number w = (Ok tt, w')
    /\ ((exists err,
           w' = World (files w) (dirs w)
                  (stdout w ++ [FailedToRename old_file err]))
        \/ (exists err,
              files w' = <[new_file := content]> (delete old_file (files w))
              /\ stdout w' = stdout w ++ [FailedToRename old_file err])
        \/ (exists desc,
              description = Some desc
              /\ files w'
                 = <[Path.join (Path.join (Path.dirname new_file) desc)
                       (Path.basename new_file) := content]>
                     (delete new_file
                        (<[new_file := content]> (delete old_file (files w))))
              /\ stdout w' = stdout w)).
Proof.
  intros new_file Hold. unfold rename_jpeg, try_except, bind. fold new_file.
  destruct (os_rename_file e old_file new_file w content Hold)
    as [[err ->]| ->].
  - eexists. split; [reflexivity|]. left. now exists err.
  - set (w1 := World (<[new_file := content]> (delete old_file (files w)))
                 (dirs w) (stdout w)).
    assert (Hnew : files w1 !! new_file = Some content)
      by apply lookup_insert_eq.
    destruct (move_outcome e new_file description w1 content Hnew)
      as [(err & w2 & -> & Hf & Hs)|(desc & w2 & -> & -> & Hf & Hs)].
    + eexists. split; [reflexivity|]. right. left. exists err.
      unfold print. cbn [files dirs stdout].
      split; [exact Hf|now rewrite Hs].
    + eexists. split; [reflexivity|]. right. right. exists desc.
      split; [reflexivity|]. split; [exact Hf|exact Hs].
Qed.

End ReorganizerEffects.

(** ** Where the renamed file goes *)

Section PathFacts.

Implicit Types (s d name p x base : string) (c : ascii) (k : Z).

Lemma rsplit_no_slash name :
  occurs "/" name = false -> Path.rsplit name = (EmptyString, name).
Proof.
  induction name as [|c name IH]; [reflexivity|].
  cbn [occurs Path.rsplit]. intros H. apply orb_false_elim in H as [Hc Hn].
  now rewrite (IH Hn), Hc.
Qed.

Lemma rsplit_app_slash x name :
  occurs "/" name = false ->
  Path.rsplit ((x +:+ "/") +:+ name) = (x +:+ "/", name).
Proof.
  intros Hn. induction x as [|c x IH].
  - change (Path.rsplit (String "/" name) = ("/", name)).
    cbn [Path.rsplit]. now rewrite (rsplit_no_slash _ Hn).
  - change (Path.rsplit (String c ((x +:+ "/") +:+ name))
            = (String c (x +:+ "/"), name)).
    cbn [Path.rsplit]. rewrite IH. now destruct x.
Qed.

Lemma endswith_slash_split d :
  Path.endswith_slash d = true -> exists x, d = x +:+ "/".
Proof.
  induction d as [|c d IH]; [discriminate|].
  cbn [Path.endswith_slash]. destruct d as [|c' d'].
  - intros H. apply Ascii.eqb_eq in H as ->. now exists EmptyString.
  - intros H. destruct (IH H) as [x ->]. now exists (String c x).
Qed.

Lemma all_slashes_endswith d :
  Py.truthy d = true -> Path.all_slashes d = true ->
  Path.endswith_slash d = true.
Proof.
  induction d as [|c d IH]; [discriminate|]. intros _ H.
  cbn [Path.all_slashes] in H. apply andb_prop in H as [Hc Hd].
  cbn [Path.endswith_slash]. destruct d as [|c' d']; [exact Hc|].
  now apply IH.
Qed.

Lemma rstrip_slashes_app_slash d :
  Path.rstrip_slashes (d +:+ "/") = Path.rstrip_slashes d.
Proof.
  induction d as [|c d IH]; [reflexivity|].
  change (String c d +:+ "/") with (String c (d +:+ "/")).
  cbn [Path.rstrip_slashes]. now rewrite IH.
Qed.

Lemma rstrip_slashes_idem s :
  Path.rstrip_slashes (Path.rstrip_slashes s) = Path.rstrip_slashes s.
Proof.
  induction s as [|c r IH]; [reflexivity|].
  cbn [Path.rstrip_slashes].
  destruct (Path.rstrip_slashes r) as [|c' r'] eqn:Hr.
  - destruct (Ascii.eqb c "/") eqn:Hc; [reflexivity|].
    cbn. now rewrite Hc.
  - cbn [Path.rstrip_slashes]. cbn [Path.rstrip_slashes] in IH.
    destruct (Path.rstrip_slashes r') as [|c'' r''] eqn:Hr'.
    + destruct (Ascii.eqb c' "/"); [discriminate IH|]. congruence.
    + congruence.
Qed.

Lemma normal_dirname p : Path.normal (Path.dirname p) = Path.dirname p.
Proof.
  unfold Path.dirname, Path.normal.
  destruct (Py.truthy (fst (Path.rsplit p))) eqn:Ht; cbn [andb].
  - destruct (Path.all_slashes (fst (Path.rsplit p))) eqn:Ha; cbn [negb].
    + now rewrite Ha.
    + rewrite rstrip_slashes_idem.
      destruct (Path.all_slashes (Path.rstrip_slashes _)); reflexivity.
  - destruct (fst (Path.rsplit p)); [reflexivity|discriminate].
Qed.

Lemma startswith_no_slash name :
  occurs "/" name = false -> Py.startswith name "/" = false.
Proof.
  destruct name as [|c name]; [reflexivity|].
  rewrite startswith_char. cbn [occurs]. intros H.
  now apply orb_false_elim in H as [-> _].
Qed.

(** A name without slash joined to a directory lies in that directory. *)
Lemma dirname_join d name :
  occurs "/" name = false -> Py.truthy name = true ->
  Path.dirname (Path.join d name) = Path.normal d
  /\ Path.basename (Path.join d name) = name.
Proof.
  intros Hn Hne. unfold Path.join, Path.dirname, Path.basename, Path.normal.
  rewrite (startswith_no_slash _ Hn).
  destruct (Py.truthy d) eqn:Hd; cbn [negb orb].
  - destruct (Path.endswith_slash d) eqn:He.
    + destruct (endswith_slash_split _ He) as [x ->].
      rewrite (rsplit_app_slash _ _ Hn). cbn [fst snd]. rewrite Hd.
      split; [|reflexivity]. cbn [andb].
      now destruct (Path.all_slashes (x +:+ "/")).
    + assert (Ha : Path.all_slashes d = false).
      { destruct (Path.all_slashes d) eqn:Ha; [|reflexivity].
        rewrite (all_slashes_endswith _ Hd Ha) in He. discriminate. }
      change (d +:+ "/" +:+ name) with (d +:+ ("/" +:+ name)).
      rewrite <- app_assoc_string, (rsplit_app_slash _ _ Hn). cbn [fst snd].
      rewrite all_slashes_app, Ha. cbn [andb negb].
      replace (Py.truthy (d +:+ "/")) with true by (now destruct d).
      split; [apply rstrip_slashes_app_slash|reflexivity].
  - destruct d; [|discriminate]. change ("" +:+ name) with name.
    rewrite (rsplit_no_slash _ Hn). now split.
Qed.

Lemma occurs_filter_chars c f s :
  f c = false -> occurs c (Spec.filter_chars f s) = false.
Proof.
  intros Hc. induction s as [|a s IH]; [reflexivity|].
  cbn [Spec.filter_chars]. destruct (f a) eqn:Ha; [|exact IH].
  cbn [occurs]. rewrite IH, orb_false_r.
  apply Ascii.eqb_neq. congruence.
Qed.

Lemma pretty_N_go_no_slash (n : N) s :
  occurs "/" s = false -> occurs "/" (pretty_N_go n s) = false.
Proof.
  revert s. induction (N.lt_wf_0 n) as [n _ IH]; intros s Hs.
  destruct (N.eq_dec n 0%N) as [->|Hn]; [now rewrite pretty_N_go_0|].
  rewrite pretty_N_go_step by lia.
  apply IH; [apply N.div_lt; lia|].
  cbn [occurs]. rewrite Hs, orb_false_r.
  unfold pretty_N_char. repeat case_match; reflexivity.
Qed.

Lemma pretty_Z_no_slash k : occurs "/" (pretty k) = false.
Proof.
  assert (Hpos : forall q : positive, occurs "/" (pretty (N.pos q)) = false).
  { intros q. unfold pretty, pretty_N. case_decide; [reflexivity|].
    now apply pretty_N_go_no_slash. }
  destruct k as [|q|q]; [reflexivity|apply Hpos|].
  change (pretty (Z.neg q)) with ("-" +:+ pretty (N.pos q)).
  rewrite occurs_app, Hpos. reflexivity.
Qed.

Lemma candidate_no_slash base k :
  occurs "/" base = false ->
  occurs "/" (Spec.candidate base k) = false
  /\ Py.truthy (Spec.candidate base k) = true.
Proof.
  intros Hb. split.
  - unfold Spec.candidate. destruct (k =? 0);
      rewrite !occurs_app, Hb, ?pretty_Z_no_slash; reflexivity.
  - destruct (candidate_jpeg base k) as [s ->]. now destruct s.
Qed.

(** The name [rename_jpeg] chooses holds no slash. *)
Lemma unique_name_no_slash d page_number description taken_date job_number w :
  let name :=
    unique_name d
      (new_name_base page_number description taken_date job_number) w in
  occurs "/" name = false /\ Py.truthy name = true.
Proof.
  intros name. subst name.
  destruct (unique_name_spec d
              (new_name_base page_number description taken_date job_number) w)
    as (k & _ & -> & _).
  apply candidate_no_slash. rewrite new_name_base_spec.
  now apply occurs_filter_chars.
Qed.

Lemma snoc_not_same {A : Type} (l : list A) (x : A) : l ++ [x] <> l.
Proof.
  intros H. apply (f_equal (@List.length A)) in H.
  rewrite List.length_app in H. simpl in H. lia.
Qed.

End PathFacts.

(** X9.  The loop of [rename_jpeg] always ends, and the name it leaves
    with is the first of "{base}.jpeg", "{base}_1.jpeg", "{base}_2.jpeg",
    ... that names no file and no directory in the directory of the temp
    file. *)
Theorem rename_loop_first_free (dir base : string) (w : world) :
  exists k : Z,
    0 <= k
    /\ unique_name dir base w = Spec.candidate base k
    /\ (forall j, 0 <= j < k ->
          Os.path_exists (Path.join dir (Spec.candidate base j)) w = true)
    /\ Os.path_exists (Path.join dir (Spec.candidate base k)) w = false.
Proof. apply unique_name_spec. Qed.

Lemma rename_loop_first_free_witness :
  unique_name "out" "Roof_1_4711" taken_names = "Roof_1_4711_2.jpeg"
  /\ exists k : Z,
       0 <= k
       /\ unique_name "out" "Roof_1_4711" taken_names
          = Spec.candidate "Roof_1_4711" k
       /\ Os.path_exists (Path.join "out" (Spec.candidate "Roof_1_4711" k))
            taken_names = false.
Proof.
  split; [reflexivity|].
  destruct (rename_loop_first_free "out" "Roof_1_4711" taken_names)
    as (k & Hk & Heq & _ & Hfree).
  exists k. split; [exact Hk|]. split; [exact Heq|exact Hfree].
Defined.

(** X10.  [rename_jpeg] never raises: it returns normally and has printed
    nothing, or one failure message that names the file it was given. *)
Theorem rename_jpeg_never_raises (e : env) (old_file : string)
    (page_number : Z) (description uploaded_by taken_date job_number :
    option string) (w : world) :
  let r := rename_jpeg e old_file page_number description uploaded_by
             taken_date job_number w in
  fst r = Ok tt
  /\ (stdout (snd r) = stdout w
      \/ exists err, stdout (snd r) = stdout w ++ [FailedToRename old_file err]).
Proof.
  intros r. subst r.
  destruct (rename_jpeg_ok e old_file page_number description uploaded_by
              taken_date job_number w) as (w' & -> & Hs).
  split; [reflexivity|exact Hs].
Qed.

(** X11.  A call of [rename_jpeg] for an existing file that prints no
    failure leaves the content at "{directory}/{description}/{name}",
    [directory] being that of the file and [name] the name the loop has
    chosen, and nothing at the old path. *)
Theorem rename_jpeg_success (e : env) (old_file : string) (page_number : Z)
    (description uploaded_by taken_date job_number : option string)
    (w : world) (content : string) :
  let r := rename_jpeg e old_file page_number description uploaded_by
             taken_date job_number w in
  let directory := Path.dirname old_file in
  let name :=
    unique_name directory
      (new_name_base page_number description taken_date job_number) w in
  files w !! old_file = Some content ->
  stdout (snd r) = stdout w ->
  exists desc,
    description = Some desc
    /\ files (snd r) !! Path.join (Path.join directory desc) name
       = Some content
    /\ (old_file <> Path.join (Path.join directory desc) name ->
        files (snd r) !! old_file = None).
Proof.
  intros r directory name Hold Hquiet. subst r directory name.
  destruct (unique_name_no_slash (Path.dirname old_file) page_number
              description taken_date job_number w) as [Hslash Hne].
  destruct (dirname_join (Path.dirname old_file) _ Hslash Hne)
    as [Hdir Hbase].
  rewrite normal_dirname in Hdir.
  destruct (rename_jpeg_outcome e old_file page_number description uploaded_by
              taken_date job_number w content Hold)
    as (w' & Hr & [(err & ->)|[(err & _ & Hs)|(desc & -> & Hf & _)]]);
    rewrite Hr in Hquiet |- *; cbn [snd stdout] in Hquiet |- *.
  - now apply snoc_not_same in Hquiet.
  - rewrite Hs in Hquiet. now apply snoc_not_same in Hquiet.
  - rewrite Hdir, Hbase in Hf.
    exists desc. split; [reflexivity|]. rewrite Hf. split.
    + apply lookup_insert_eq.
    + intros Hne'. rewrite lookup_insert_ne by congruence.
      match goal with
      | |- delete ?new_file _ !! _ = None =>
          destruct (decide (new_file = old_file)) as [Heq|Hne'']
      end.
      * rewrite Heq. apply lookup_delete_eq.
      * rewrite lookup_delete_ne, lookup_insert_ne by congruence.
        apply lookup_delete_eq.
Qed.

Lemma rename_jpeg_success_witness :
  files two_temp_files !! "out/a.jpeg" = Some "first image"
  /\ files (snd (rename_jpeg (example_env true []) "out/a.jpeg" 1
                   (Some "Roof") (Some "Alice") (Some EmptyString)
                   (Some "4711") two_temp_files))
       !! "out/Roof/Roof_1_4711.jpeg" = Some "first image".
Proof.
  assert (H : files two_temp_files !! "out/a.jpeg" = Some "first image")
    by (vm_compute; reflexivity).
  split; [exact H|].
  destruct (rename_jpeg_success (example_env true []) "out/a.jpeg" 1
              (Some "Roof") (Some "Alice") (Some EmptyString) (Some "4711")
              two_temp_files "first image" H ltac:(vm_compute; reflexivity))
    as (desc & Hd & Hfinal & _).
  injection Hd as <-. exact Hfinal.
Defined.

(** X12.  [rename_jpeg] does not lose the image it is given: the content
    of an existing file is at some path after the call, whether the call
    fails or not. *)
Theorem rename_jpeg_keeps_image (e : env) (old_file : string)
    (page_number : Z) (description uploaded_by taken_date job_number :
    option string) (w : world) (content : string) :
  files w !! old_file = Some content ->
  exists p,
    files (snd (rename_jpeg e old_file page_number description uploaded_by
                  taken_date job_number w)) !! p = Some content.
Proof.
  intros Hold.
  destruct (rename_jpeg_outcome e old_file page_number description uploaded_by
              taken_date job_number w content Hold)
    as (w' & -> & [(err & ->)|[(err & Hf & _)|(desc & _ & Hf & _)]]);
    cbn [snd files].
  - now exists old_file.
  - eexists. rewrite Hf. apply lookup_insert_eq.
  - eexists. rewrite Hf. apply lookup_insert_eq.
Qed.

Lemma rename_jpeg_keeps_image_witness :
  files two_temp_files !! "out/b.jpeg" = Some "second image"
  /\ exists p,
       files (snd (rename_jpeg (example_env false []) "out/b.jpeg" 2 None None
                     None None two_temp_files)) !! p = Some "second image".
Proof.
  assert (H : files two_temp_files !! "out/b.jpeg" = Some "second image")
    by (vm_compute; reflexivity).
  split; [exact H|].
  exact (rename_jpeg_keeps_image (example_env false []) "out/b.jpeg" 2 None
           None None None two_temp_files "second image" H).
Defined.

(** X13.  With the description [None], [rename_jpeg] always prints a
    failure, and when the file it is given is no directory it leaves the
    directories as they are. *)
Theorem rename_jpeg_without_description (e : env) (old_file : string)
    (page_number : Z) (uploaded_by taken_date job_number : option string)
    (w : world) :
  let r := rename_jpeg e old_file page_number None uploaded_by taken_date
             job_number w in
  (exists err, stdout (snd r) = stdout w ++ [FailedToRename old_file err])
  /\ (Os.isdir old_file w = false -> dirs (snd r) = dirs w).
Proof.
  intros r. subst r. unfold rename_jpeg, try_except, bind.
  match goal with
  | |- context [Os.rename e old_file ?new_file w] =>
      pose proof (os_rename_stdout e old_file new_file w) as Hs;
      pose proof (os_rename_dirs e old_file new_file w) as Hd;
      destruct (Os.rename e old_file new_file w) as [[[]|err] w1] eqn:Hr;
      cbn [snd] in Hs, Hd
  end.
  - rewrite move_without_description. unfold print. cbn [snd dirs stdout].
    split; [exists TypeError; now rewrite Hs|exact Hd].
  - apply os_rename_raise in Hr as ->. unfold print. cbn [snd dirs stdout].
    split; [now exists err|reflexivity].
Qed.

Lemma rename_jpeg_without_description_witness :
  Os.isdir "out/b.jpeg" two_temp_files = false
  /\ dirs (snd (rename_jpeg (example_env true []) "out/b.jpeg" 2 None None
                  None None two_temp_files))
     = dirs two_temp_files.
Proof.
  assert (H : Os.isdir "out/b.jpeg" two_temp_files = false)
    by (vm_compute; reflexivity).
  split; [exact H|].
  exact (proj2 (rename_jpeg_without_description (example_env true [])
                  "out/b.jpeg" 2 None None None two_temp_files) H).
Defined.

(** X14.  When nothing exists at the path it is given, no file and no
    directory, [rename_jpeg] prints one failure for that path and changes
    nothing else. *)
Theorem rename_jpeg_missing_file (e : env) (old_file : string)
    (page_number : Z) (description uploaded_by taken_date job_number :
    option string) (w : world) :
  Os.path_exists old_file w = false ->
  exists err,
    rename_jpeg e old_file page_number description uploaded_by taken_date
      job_number w
    = (Ok tt, World (files w) (dirs w)
                (stdout w ++ [FailedToRename old_file err])).
Proof.
  intros Hmissing. unfold rename_jpeg, try_except, bind.
  match goal with
  | |- context [Os.rename e old_file ?new_file w] =>
      destruct (os_rename_missing e old_file new_file w Hmissing) as [err ->]
  end.
  now exists err.
Qed.

Lemma rename_jpeg_missing_file_witness :
  Os.path_exists "out/c.jpeg" two_temp_files = false
  /\ exists err,
       rename_jpeg (example_env true []) "out/c.jpeg" 3 (Some "Roof") None
         None None two_temp_files
       = (Ok tt, World (files two_temp_files) (dirs two_temp_files)
                   [FailedToRename "out/c.jpeg" err]).
Proof.
  assert (H : Os.path_exists "out/c.jpeg" two_temp_files = false)
    by (vm_compute; reflexivity).
  split; [exact H|].
  exact (rename_jpeg_missing_file (example_env true []) "out/c.jpeg" 3
           (Some "Roof") None None None two_temp_files H).
Defined.

(** ** What the fetcher and the driver do *)

Section FetchAndDrive.

Implicit Types (e : env) (w : world) (jpeg_files : gmap Z string).

Lemma download_jpeg_cases e url path count section_title w :
  (exists err, download_jpeg e url path count section_title w = (Raise err, w)
               /\ (forall response, requests_get e url = Ok response ->
                     Os.write_file (temp_path path section_title count)
                       response w = (Raise err, w)))
  \/ (exists response,
        requests_get e url = Ok response
        /\ download_jpeg e url path count section_title w
           = (Ok (temp_path path section_title count, count),
              World (<[temp_path path section_title count := response]>
                       (files w)) (dirs w) (stdout w))).
Proof.
  unfold download_jpeg, bind, lift, ret. fold (temp_path path section_title count).
  destruct (requests_get e url) as [response|err];
    [|left; exists err; split; [reflexivity|discriminate]].
  unfold Os.write_file.
  destruct (Os.path_error _ w);
    [left; eexists; split; [reflexivity|now intros ? [= <-]]|].
  destruct (Path.all_slashes _);
    [left; eexists; split; [reflexivity|now intros ? [= <-]]|].
  destruct (Path.too_long _);
    [left; eexists; split; [reflexivity|now intros ? [= <-]]|].
  destruct (_ || _);
    [left; eexists; split; [reflexivity|now intros ? [= <-]]|].
  right. now exists response.
Qed.

(** The tasks submitted for a document that parses: one for each
    hyperlink, with the number of its page and the description parsed
    from the text of that page. *)
Lemma submit_pages_tasks directory start pages tasks err t :
  submit_pages directory start pages = (tasks, err) ->
  In t tasks ->
  exists (i : nat) (page : pdf_page) (fields : page_fields),
    pages !! i = Some page
    /\ parse_text_to_fields (plumber_text page) = Ok fields
    /\ In (task_url t) (hyperlinks page)
    /\ task_count t = start + Z.of_nat i + 1
    /\ task_path t = directory
    /\ task_section_title t = description fields.
Proof.
  revert start tasks err.
  induction pages as [|page pages IH]; intros start tasks err Hsub Hin.
  - injection Hsub as <- <-. destruct Hin.
  - cbn [submit_pages] in Hsub.
    destruct (parse_text_to_fields (plumber_text page)) as [fields|e'] eqn:Hp.
    + destruct (submit_pages directory (start + 1) pages) as [rest err']
        eqn:Hrest.
      injection Hsub as <- <-.
      apply List.in_app_or in Hin as [Hin|Hin].
      * apply List.in_map_iff in Hin as (url & <- & Hurl).
        exists O, page, fields. cbn.
        split; [reflexivity|]. split; [exact Hp|]. split; [exact Hurl|].
        split; [lia|]. now split.
      * destruct (IH _ _ _ Hrest Hin)
          as (i & page' & fields' & Hi & Hp' & Hu & Hc & Hd & Ht).
        exists (S i), page', fields'.
        split; [exact Hi|]. split; [exact Hp'|]. split; [exact Hu|].
        split; [lia|]. now split.
    + injection Hsub as <- <-. destruct Hin.
Qed.

(** When no page fails to parse, every hyperlink has its task. *)
Lemma submit_pages_complete directory start pages tasks (i : nat) page url :
  submit_pages directory start pages = (tasks, None) ->
  pages !! i = Some page -> In url (hyperlinks page) ->
  exists t, In t tasks /\ task_count t = start + Z.of_nat i + 1.
Proof.
  revert start tasks i.
  induction pages as [|page' pages IH]; intros start tasks i Hsub Hi Hurl;
    [discriminate Hi|].
  cbn [submit_pages] in Hsub.
  destruct (parse_text_to_fields (plumber_text page')) as [fields|e'];
    [|discriminate Hsub].
  destruct (submit_pages directory (start + 1) pages) as [rest err'] eqn:Hrest.
  injection Hsub as <- ->.
  destruct i as [|i].
  - injection Hi as ->.
    exists (DownloadTask url directory (start + 1) (description fields)).
    split; [|cbn; lia].
    apply List.in_or_app. left. apply List.in_map_iff. now exists url.
  - destruct (IH _ _ _ Hrest Hi Hurl) as (t & Ht & Hc).
    exists t. split; [apply List.in_or_app; now right|lia].
Qed.

Lemma run_tasks_values e tasks w futures jpeg_file page_number :
  fst (run_tasks e tasks w) = Ok futures ->
  In (Ok (jpeg_file, page_number)) futures ->
  exists t, In t tasks
            /\ page_number = task_count t
            /\ jpeg_file
               = temp_path (task_path t) (task_section_title t) (task_count t).
Proof.
  revert w futures; induction tasks as [|t tasks IH]; intros w futures Hrun Hin.
  - injection Hrun as <-. destruct Hin.
  - cbn [run_tasks] in Hrun.
    destruct (download_jpeg e _ _ _ _ w) as [r w1] eqn:Hd.
    unfold bind, ret in Hrun.
    destruct (run_tasks e tasks w1) as [[fs|e'] w2] eqn:Hrest;
      [|discriminate Hrun].
    cbn in Hrun. injection Hrun as <-.
    destruct Hin as [Hr|Hin].
    + exists t. split; [now left|].
      destruct (download_jpeg_cases e (task_url t) (task_path t) (task_count t)
                  (task_section_title t) w)
        as [(err & Hc & _)|(response & _ & Hc)]; rewrite Hc in Hd;
        injection Hd as <- <-; [discriminate Hr|].
      injection Hr as <- <-. now split.
    + destruct (IH w1 fs ltac:(now rewrite Hrest) Hin) as (t' & Ht' & Hv).
      exists t'. split; [now right|exact Hv].
Qed.

Lemma collect_values futures jpeg_files result page_number jpeg_file :
  collect futures jpeg_files = Ok result ->
  result !! page_number = Some jpeg_file ->
  jpeg_files !! page_number = Some jpeg_file
  \/ In (Ok (jpeg_file, page_number)) futures.
Proof.
  revert jpeg_files; induction futures as [|[[f p]|e'] futures IH];
    intros jpeg_files Hc Hl.
  - injection Hc as <-. now left.
  - cbn [collect] in Hc. destruct (IH _ Hc Hl) as [Hin|Hin]; [|right; now right].
    destruct (decide (p = page_number)) as [->|Hne].
    + rewrite lookup_insert_eq in Hin. injection Hin as ->. right. now left.
    + left. now rewrite lookup_insert_ne in Hin.
  - discriminate Hc.
Qed.

(** The mapping keeps the keys it has and gets the page of every task. *)
Lemma run_collect_keys e tasks w futures jpeg_files result :
  fst (run_tasks e tasks w) = Ok futures ->
  collect futures jpeg_files = Ok result ->
  (forall p, is_Some (jpeg_files !! p) -> is_Some (result !! p))
  /\ forall t, In t tasks -> is_Some (result !! task_count t).
Proof.
  revert w futures jpeg_files;
    induction tasks as [|t tasks IH]; intros w futures jpeg_files Hrun Hc.
  - injection Hrun as <-. injection Hc as <-. split; [auto|intros ? []].
  - cbn [run_tasks] in Hrun.
    destruct (download_jpeg e _ _ _ _ w) as [r w1] eqn:Hd.
    unfold bind, ret in Hrun.
    destruct (run_tasks e tasks w1) as [[fs|e'] w2] eqn:Hrest;
      [|discriminate Hrun].
    cbn in Hrun. injection Hrun as <-.
    destruct (download_jpeg_cases e (task_url t) (task_path t) (task_count t)
                (task_section_title t) w)
      as [(err & Hdc & _)|(response & _ & Hdc)]; rewrite Hdc in Hd;
      injection Hd as <- <-; [discriminate Hc|].
    cbn [collect] in Hc.
    destruct (IH _ fs _ ltac:(now rewrite Hrest) Hc) as [Hkeep Hall].
    assert (Hhere : is_Some (result !! task_count t))
      by (apply Hkeep; rewrite lookup_insert_eq; eauto).
    split.
    + intros p Hp. apply Hkeep.
      destruct (decide (task_count t = p)) as [->|Hne];
        [rewrite lookup_insert_eq; eauto|now rewrite lookup_insert_ne].
    + intros t' [<-|Hin]; [exact Hhere|now apply Hall].
Qed.

(** What [download_jpegs_from_pdf] has done when it returns a mapping. *)
Lemma download_returns e pdf_file directory w jpeg_files w' :
  download_jpegs_from_pdf e pdf_file directory w = (Ok jpeg_files, w') ->
  exists pages tasks futures,
    open_pdf e pdf_file = Ok pages
    /\ submit_pages directory 0 pages = (tasks, None)
    /\ fst (run_tasks e (as_completed e tasks) w) = Ok futures
    /\ collect futures ∅ = Ok jpeg_files.
Proof.
  unfold download_jpegs_from_pdf, bind, lift. intros Hdown.
  destruct (open_pdf e pdf_file) as [pages|e']; [|discriminate Hdown].
  destruct (submit_pages directory 0 pages) as [tasks err] eqn:Hsub.
  destruct (run_tasks e (as_completed e tasks) w) as [[futures|e'] w1] eqn:Hrun;
    [|discriminate Hdown].
  destruct err as [err|]; [discriminate Hdown|].
  destruct (collect futures ∅) as [m|e'] eqn:Hc; [|discriminate Hdown].
  injection Hdown as <- <-.
  exists pages, tasks, futures. now rewrite Hrun.
Qed.

Lemma process_page_result e jpeg_files page_number page w :
  fst (process_page e jpeg_files page_number page w)
  = match parse_text_to_fields (reader_text page) with
    | Ok _ => Ok tt
    | Raise err => Raise err
    end.
Proof.
  unfold process_page, bind, lift.
  destruct (parse_text_to_fields (reader_text page)) as [fields|err];
    [|reflexivity].
  destruct (jpeg_files !! page_number) as [jpeg_file|]; [|reflexivity].
  destruct (rename_jpeg_ok e jpeg_file page_number (description fields)
              (uploaded_by fields) (taken_date fields) (job_number fields) w)
    as (w' & -> & _).
  reflexivity.
Qed.

End FetchAndDrive.

(** X15.  A call of [download_jpeg] that returns has written the response
    to "{path}/{section_title}_{count}.jpeg", names that file in its
    result beside [count], and has touched no other file; a call that
    raises has changed nothing, and it raises what the request raises. *)
Theorem download_jpeg_result (e : env) (url path : string) (count : Z)
    (section_title : option string) (w : world) :
  (forall r w',
      download_jpeg e url path count section_title w = (Ok r, w') ->
      r = (temp_path path section_title count, count)
      /\ (exists response,
            requests_get e url = Ok response
            /\ files w' !! temp_path path section_title count = Some response)
      /\ (forall p, p <> temp_path path section_title count ->
            files w' !! p = files w !! p)
      /\ dirs w' = dirs w /\ stdout w' = stdout w)
  /\ (forall err w',
        download_jpeg e url path count section_title w = (Raise err, w') ->
        w' = w)
  /\ (forall err,
        requests_get e url = Raise err ->
        download_jpeg e url path count section_title w = (Raise err, w)).
Proof.
  destruct (download_jpeg_cases e url path count section_title w)
    as [(err & Hc & _)|(response & Hreq & Hc)]; rewrite Hc.
  - split; [discriminate|]. split; [now intros ? ? [= _ <-]|].
    intros err' Hreq. unfold download_jpeg, bind, lift in Hc.
    rewrite Hreq in Hc. now symmetry.
  - split; [|split; [discriminate|congruence]].
    intros r w' [= <- <-]. split; [reflexivity|].
    cbn [files dirs stdout]. split.
    + exists response. split; [exact Hreq|apply lookup_insert_eq].
    + split; [|now split]. intros p Hp. now apply lookup_insert_ne.
Qed.

Lemma download_jpeg_result_witness :
  fst (download_jpeg (example_env true []) "https://images.example/1" "out" 1
         (Some "Roof") two_temp_files)
  = Ok ("out/Roof_1.jpeg", 1)
  /\ files (snd (download_jpeg (example_env true [])
                   "https://images.example/1" "out" 1 (Some "Roof")
                   two_temp_files)) !! "out/a.jpeg"
     = Some "first image".
Proof.
  set (call := download_jpeg (example_env true []) "https://images.example/1"
                 "out" 1 (Some "Roof") two_temp_files).
  assert (H : call = (Ok ("out/Roof_1.jpeg", 1), snd call))
    by (vm_compute; reflexivity).
  destruct (proj1 (download_jpeg_result (example_env true [])
                     "https://images.example/1" "out" 1 (Some "Roof")
                     two_temp_files) _ _ H)
    as (_ & _ & Hother & _).
  split; [now rewrite H|].
  rewrite (Hother "out/a.jpeg" ltac:(vm_compute; discriminate)).
  vm_compute. reflexivity.
Defined.

(** X16.  When the pool completes exactly the tasks it was given, the
    keys of the mapping [download_jpegs_from_pdf] returns are exactly the
    1-based numbers of the pages that have a hyperlink. *)
Theorem download_keys_are_linked_pages (e : env) (pdf_file directory : string)
    (pages : list pdf_page) (w w' : world) (jpeg_files : gmap Z string)
    (page_number : Z) :
  (forall tasks t, In t (as_completed e tasks) <-> In t tasks) ->
  open_pdf e pdf_file = Ok pages ->
  download_jpegs_from_pdf e pdf_file directory w = (Ok jpeg_files, w') ->
  is_Some (jpeg_files !! page_number)
  <-> exists (i : nat) (page : pdf_page),
        pages !! i = Some page
        /\ page_number = Z.of_nat i + 1
        /\ hyperlinks page <> [].
Proof.
  intros Hsched Hopen Hdown. split.
  - apply (download_keys_have_links e pdf_file directory pages w jpeg_files w');
      [intros tasks t; apply Hsched|exact Hopen|exact Hdown].
  - intros (i & page & Hi & -> & Hlinks).
    destruct (download_returns _ _ _ _ _ _ Hdown)
      as (pages' & tasks & futures & Hopen' & Hsub & Hrun & Hc).
    assert (pages' = pages) as -> by congruence.
    destruct (hyperlinks page) as [|url urls] eqn:Hl; [congruence|].
    destruct (submit_pages_complete _ _ _ _ i page url Hsub Hi
                ltac:(rewrite Hl; now left)) as (t & Ht & Hcount).
    destruct (run_collect_keys _ _ _ _ _ _ Hrun Hc) as [_ Hall].
    apply Hsched in Ht. specialize (Hall t Ht).
    now replace (Z.of_nat i + 1) with (task_count t) by lia.
Qed.

(** X17.  Whatever the order of completion and however many hyperlinks a
    page has, the path the mapping gives for a page is
    "{directory}/{description}_{page_number}.jpeg", the description being
    the one parsed from the text of that page in the first pass. *)
Theorem download_value_is_temp_path (e : env) (pdf_file directory : string)
    (pages : list pdf_page) (w w' : world) (jpeg_files : gmap Z string)
    (page_number : Z) (jpeg_file : string) :
  (forall tasks t, In t (as_completed e tasks) -> In t tasks) ->
  open_pdf e pdf_file = Ok pages ->
  download_jpegs_from_pdf e pdf_file directory w = (Ok jpeg_files, w') ->
  jpeg_files !! page_number = Some jpeg_file ->
  exists (i : nat) (page : pdf_page) (fields : page_fields),
    pages !! i = Some page
    /\ page_number = Z.of_nat i + 1
    /\ parse_text_to_fields (plumber_text page) = Ok fields
    /\ jpeg_file = temp_path directory (description fields) page_number.
Proof.
  intros Hsched Hopen Hdown Hl.
  destruct (download_returns _ _ _ _ _ _ Hdown)
    as (pages' & tasks & futures & Hopen' & Hsub & Hrun & Hc).
  assert (pages' = pages) as -> by congruence.
  destruct (collect_values _ _ _ _ _ Hc Hl) as [Hempty|Hin];
    [now rewrite lookup_empty in Hempty|].
  destruct (run_tasks_values _ _ _ _ _ _ Hrun Hin) as (t & Ht & -> & ->).
  apply Hsched in Ht.
  destruct (submit_pages_tasks _ _ _ _ _ _ Hsub Ht)
    as (i & page & fields & Hi & Hp & _ & Hcount & -> & ->).
  exists i, page, fields.
  split; [exact Hi|]. split; [lia|]. split; [exact Hp|reflexivity].
Qed.

Lemma download_keys_are_linked_pages_witness :
  fst (download_jpegs_from_pdf (example_env true [photo_page; notes_page])
         "report.pdf" "out" out_world) = Ok photo_mapping
  /\ is_Some (photo_mapping !! 1)
  /\ exists (i : nat) (page : pdf_page),
       [photo_page; notes_page] !! i = Some page
       /\ 1 = Z.of_nat i + 1 /\ hyperlinks page <> [].
Proof.
  set (call := download_jpegs_from_pdf
                 (example_env true [photo_page; notes_page])
                 "report.pdf" "out" out_world).
  assert (H : call = (Ok photo_mapping, snd call))
    by (vm_compute; reflexivity).
  assert (Hkey : is_Some (photo_mapping !! 1)) by (vm_compute; eauto).
  split; [now rewrite H|]. split; [exact Hkey|].
  exact (proj1 (download_keys_are_linked_pages
                  (example_env true [photo_page; notes_page])
                  "report.pdf" "out" [photo_page; notes_page] out_world
                  (snd call) photo_mapping 1
                  (fun tasks t => conj (fun i => i) (fun i => i))
                  eq_refl H) Hkey).
Defined.

Lemma download_value_is_temp_path_witness :
  photo_mapping !! 1 = Some "out/Roof-leak-north_1.jpeg"
  /\ exists (i : nat) (page : pdf_page) (fields : page_fields),
       [photo_page; notes_page] !! i = Some page
       /\ 1 = Z.of_nat i + 1
       /\ parse_text_to_fields (plumber_text page) = Ok fields
       /\ "out/Roof-leak-north_1.jpeg"
          = temp_path "out" (description fields) 1.
Proof.
  set (call := download_jpegs_from_pdf
                 (example_env true [photo_page; notes_page])
                 "report.pdf" "out" out_world).
  assert (H : call = (Ok photo_mapping, snd call))
    by (vm_compute; reflexivity).
  assert (Hl : photo_mapping !! 1 = Some "out/Roof-leak-north_1.jpeg")
    by (vm_compute; reflexivity).
  split; [exact Hl|].
  exact (download_value_is_temp_path
           (example_env true [photo_page; notes_page])
           "report.pdf" "out" [photo_page; notes_page] out_world
           (snd call) photo_mapping 1 "out/Roof-leak-north_1.jpeg"
           (fun tasks t i => i) eq_refl H Hl).
Defined.

Lemma parse_raise_only (text : string) (err : exn) :
  parse_text_to_fields text = Raise err -> err = AttributeError.
Proof.
  intros H. apply parse_raise in H.
  now apply (proj1 (clean_description_raise_cases _)) in H.
Qed.

(** X18.  The second pass ends normally exactly when the text of every
    page parses, and with [AttributeError] otherwise: no failure of a
    rename or a move stops it. *)
Theorem process_pages_outcome (e : env) (jpeg_files : gmap Z string)
    (page_number : Z) (pages : list pdf_page) (w : world) :
  fst (process_pages e jpeg_files page_number pages w)
  = if List.forallb (fun page => parses (reader_text page)) pages
    then Ok tt else Raise AttributeError.
Proof.
  revert page_number w; induction pages as [|page pages IH];
    intros page_number w; [reflexivity|].
  cbn [process_pages List.forallb]. unfold bind.
  pose proof (process_page_result e jpeg_files page_number page w) as Hp.
  destruct (process_page e jpeg_files page_number page w) as [[[]|err] w1];
    cbn [fst] in Hp; unfold parses at 1;
    destruct (parse_text_to_fields (reader_text page)) as [fields|err'] eqn:Hparse;
    try discriminate Hp.
  - cbn [andb]. apply IH.
  - cbn [andb fst]. injection Hp as ->.
    now rewrite (parse_raise_only _ _ Hparse).
Qed.

(** X19.  When the document cannot be opened, [process_pdf] ends with an
    exception, that of the opening once the output directory is made, and
    leaves the files and the output as they were. *)
Theorem process_pdf_unreadable_document (e : env) (pdf_file directory : string)
    (w : world) (err : exn) :
  open_pdf e pdf_file = Raise err ->
  let r := process_pdf e pdf_file directory w in
  (exists err', fst r = Raise err')
  /\ (fst (Os.makedirs directory w) = Ok tt -> fst r = Raise err)
  /\ files (snd r) = files w
  /\ stdout (snd r) = stdout w.
Proof.
  intros Hopen r. subst r.
  unfold process_pdf, download_jpegs_from_pdf, bind, lift. rewrite Hopen.
  destruct (keeps_makedirs directory w) as [Hf Hs].
  destruct (Os.makedirs directory w) as [[[]|err'] w1];
    cbn [fst snd] in Hf, Hs |- *.
  - split; [now exists err|]. now split.
  - split; [now exists err'|]. split; [discriminate|now split].
Qed.

Lemma process_pdf_unreadable_document_witness :
  open_pdf (Env true (fun _ => Raise ConnectionError)
              (fun _ => Raise FileNotFoundError) (fun tasks => tasks))
    "missing.pdf" = Raise FileNotFoundError
  /\ fst (process_pdf (Env true (fun _ => Raise ConnectionError)
                         (fun _ => Raise FileNotFoundError)
                         (fun tasks => tasks))
            "missing.pdf" "out" two_temp_files)
     = Raise FileNotFoundError.
Proof.
  split; [reflexivity|].
  exact (proj1 (proj2 (process_pdf_unreadable_document
                         (Env true (fun _ => Raise ConnectionError)
                            (fun _ => Raise FileNotFoundError)
                            (fun tasks => tasks))
                         "missing.pdf" "out" two_temp_files FileNotFoundError
                         eq_refl))
           ltac:(vm_compute; reflexivity)).
Defined.

(** X20.  With exactly 3 arguments the script never exits with a status:
    it prints the directory as given and as cleaned, and ends as
    [process_pdf] ends on the cleaned directory, which holds no double
    quote. *)
Theorem main_three_arguments (e : env) (a0 pdf_file directory : string)
    (w : world) :
  let cleaned :=
    Py.replace double_quote EmptyString
      (Py.replace (backslash +:+ backslash) backslash directory) in
  let r :=
    process_pdf e pdf_file cleaned
      (World (files w) (dirs w)
         (stdout w ++ [ReprOf directory; ReprOf cleaned])) in
  occurs quote_char cleaned = false
  /\ main e [a0; pdf_file; directory] w
     = (match fst r with
        | Ok _ => Finished
        | Raise err => Uncaught err
        end, snd r)
  /\ forall status, fst (main e [a0; pdf_file; directory] w) <> Exit status.
Proof.
  intros cleaned r.
  assert (Hmain : main e [a0; pdf_file; directory] w
                  = (match fst r with
                     | Ok _ => Finished
                     | Raise err => Uncaught err
                     end, snd r)).
  { unfold main. cbn [argv_item List.nth_error List.length Nat.eqb negb].
    unfold print. cbn [files dirs stdout]. fold cleaned.
    rewrite <- List.app_assoc. cbn [List.app]. fold r.
    now destruct r as [[[]|err] w']. }
  split; [|split; [exact Hmain|]].
  - unfold cleaned, double_quote. rewrite replace_delete_spec.
    now apply occurs_filter_chars.
  - intros status. rewrite Hmain. cbn [fst]. now destruct (fst r).
Qed.

Lemma main_three_arguments_witness :
  fst (main (example_env true [photo_page; notes_page])
         ["script.py"; "report.pdf"; "out"] empty_world)
  <> Exit 1.
Proof.
  exact (proj2 (proj2 (main_three_arguments
                         (example_env true [photo_page; notes_page])
                         "script.py" "report.pdf" "out" empty_world)) 1).
Defined.

(** ** The name [rename_jpeg] gives *)

Lemma rename_jpeg_quiet (e : env) (old_file : string) (page_number : Z)
    (description uploaded_by taken_date job_number : option string)
    (w : world) (content : string) :
  files w !! old_file = Some content ->
  stdout (snd (rename_jpeg e old_file page_number description uploaded_by
                 taken_date job_number w)) = stdout w ->
  exists desc,
    description = Some desc
    /\ files (snd (rename_jpeg e old_file page_number description uploaded_by
                     taken_date job_number w))
         !! Path.join (Path.join (Path.dirname old_file) desc)
              (unique_name (Path.dirname old_file)
                 (new_name_base page_number description taken_date job_number)
                 w)
       = Some content.
Proof.
  intros Hold Hquiet.
  destruct (unique_name_no_slash (Path.dirname old_file) page_number
              description taken_date job_number w) as [Hslash Hne].
  destruct (dirname_join (Path.dirname old_file) _ Hslash Hne)
    as [Hdir Hbase].
  rewrite normal_dirname in Hdir.
  destruct (rename_jpeg_outcome e old_file page_number description uploaded_by
              taken_date job_number w content Hold)
    as (w' & Hr & [(err & ->)|[(err & _ & Hs)|(desc & -> & Hf & _)]]);
    rewrite Hr in Hquiet |- *; cbn [snd stdout] in Hquiet |- *.
  - now apply snoc_not_same in Hquiet.
  - rewrite Hs in Hquiet. now apply snoc_not_same in Hquiet.
  - rewrite Hdir, Hbase in Hf. exists desc. split; [reflexivity|].
    rewrite Hf. apply lookup_insert_eq.
Qed.

(** C6.  The base of the output name is "{description}_{page_number}_
    {job_number}" when [taken_date] is the empty string and
    "{description}_{page_number}_{taken_date}_{job_number}" otherwise, with
    [None] printed as "None"; every character outside the alphanumerics
    and the underscore is then stripped, none of them is left, and ".jpeg"
    is appended.  [rename_jpeg] renames the file it is given to that name
    in its directory, the name taken as it is when no entry has it, and
    then moves it: a call for an existing file that prints no failure
    leaves the content under that name in the directory of the
    description. *)
Theorem rename_jpeg_name :
  (forall (page_number : Z) (description taken_date job_number : option string),
      new_name_base page_number description taken_date job_number
      = Spec.strip_nonword
          (if bool_decide (taken_date = Some EmptyString)
           then fmt description +:+ "_" +:+ pretty page_number +:+ "_"
                  +:+ fmt job_number
           else fmt description +:+ "_" +:+ pretty page_number +:+ "_"
                  +:+ fmt taken_date +:+ "_" +:+ fmt job_number)
      /\ Spec.filter_chars (fun c => negb (Py.isword c))
           (new_name_base page_number description taken_date job_number)
         = EmptyString)
  /\ fmt None = "None"
  /\ new_name_base 3 None None None = "None_3_None_None"
  /\ new_name_base 3 (Some "Roof-leak") (Some EmptyString) (Some "4711")
     = "Roofleak_3_4711"
  /\ new_name_base 3 (Some "Roof-leak") (Some "03_01_2020") (Some "4711")
     = "Roofleak_3_03_01_2020_4711"
  /\ (forall (dir base : string) (w : world),
        Os.path_exists (Path.join dir (base +:+ ".jpeg")) w = false ->
        unique_name dir base w = base +:+ ".jpeg")
  /\ (forall (e : env) (old_file : string) (page_number : Z)
        (description uploaded_by taken_date job_number : option string)
        (w : world),
        let base :=
          Spec.strip_nonword
            (Spec.raw_name_base page_number description taken_date
               job_number) in
        let new_file :=
          Path.join (Path.dirname old_file)
            (unique_name (Path.dirname old_file) base w) in
        rename_jpeg e old_file page_number description uploaded_by taken_date
          job_number w
        = try_except
            (Os.rename e old_file new_file ;;;
             move_jpeg_to_directory e new_file description)
            (fun err => print (FailedToRename old_file err)) w)
  /\ (forall (e : env) (old_file : string) (page_number : Z)
        (description uploaded_by taken_date job_number : option string)
        (w : world) (content : string),
        let base :=
          Spec.strip_nonword
            (Spec.raw_name_base page_number description taken_date
               job_number) in
        let r := rename_jpeg e old_file page_number description uploaded_by
                   taken_date job_number w in
        files w !! old_file = Some content ->
        stdout (snd r) = stdout w ->
        exists desc,
          description = Some desc
          /\ files (snd r)
               !! Path.join (Path.join (Path.dirname old_file) desc)
                    (unique_name (Path.dirname old_file) base w)
             = Some content
          /\ (Os.path_exists
                (Path.join (Path.dirname old_file) (base +:+ ".jpeg")) w
              = false ->
              files (snd r)
                !! Path.join (Path.join (Path.dirname old_file) desc)
                     (base +:+ ".jpeg")
              = Some content)).
Proof.
  split.
  { intros page_number description taken_date job_number.
    rewrite new_name_base_spec.
    split; [reflexivity|apply strip_nonword_isword]. }
  do 4 (split; [reflexivity|]).
  split; [apply unique_name_first_free|]. split.
  - intros e old_file page_number description uploaded_by taken_date
      job_number w base new_file. subst base new_file.
    unfold rename_jpeg. now rewrite new_name_base_spec.
  - intros e old_file page_number description uploaded_by taken_date
      job_number w content base r Hold Hquiet. subst base r.
    destruct (rename_jpeg_quiet e old_file page_number description uploaded_by
                taken_date job_number w content Hold Hquiet)
      as (desc & -> & Hfinal).
    rewrite new_name_base_spec in Hfinal.
    exists desc. split; [reflexivity|]. split; [exact Hfinal|].
    intros Hfree. now rewrite (unique_name_first_free _ _ _ Hfree) in Hfinal.
Qed.

Lemma rename_jpeg_name_witness :
  files two_temp_files !! "out/a.jpeg" = Some "first image"
  /\ Os.path_exists (Path.join "out" ("Roof_1_4711" +:+ ".jpeg"))
       two_temp_files = false
  /\ unique_name "out" "Roof_1_4711" two_temp_files = "Roof_1_4711.jpeg"
  /\ files (snd (rename_jpeg (example_env true []) "out/a.jpeg" 1
                   (Some "Roof") (Some "Alice") (Some EmptyString)
                   (Some "4711") two_temp_files))
       !! "out/Roof/Roof_1_4711.jpeg"
     = Some "first image".
Proof.
  assert (Hold : files two_temp_files !! "out/a.jpeg" = Some "first image")
    by (vm_compute; reflexivity).
  assert (Hfree : Os.path_exists (Path.join "out" ("Roof_1_4711" +:+ ".jpeg"))
                    two_temp_files = false) by (vm_compute; reflexivity).
  split; [exact Hold|]. split; [exact Hfree|]. split.
  - exact (proj1 (proj2 (proj2 (proj2 (proj2 (proj2 rename_jpeg_name)))))
             "out" "Roof_1_4711" two_temp_files Hfree).
  - destruct (proj2 (proj2 (proj2 (proj2 (proj2 (proj2 (proj2
                       rename_jpeg_name))))))
                (example_env true []) "out/a.jpeg" 1 (Some "Roof")
                (Some "Alice") (Some EmptyString) (Some "4711")
                two_temp_files "first image" Hold
                ltac:(vm_compute; reflexivity))
      as (desc & Hdesc & _ & Hname).
    injection Hdesc as <-. exact (Hname Hfree).
Defined.
